(** * llmware [setup.py]: the sample-file loaders

    A shallow embedding of [src/llmware/setup.py] — the [Setup] class with
    its private helper [_download_and_unpack] and the three public loaders
    [load_sample_files], [load_voice_sample_files] and
    [load_selected_sample_files] — together with the properties of the
    loaders that the module's specification states.

    The loaders are effectful: they look at and change the file system,
    they call the storage client, the archive extractor and the workspace
    initialiser, they log, and they raise.  The embedding threads an explicit
    [world] through a small state-and-exception monad.

    What lies outside [setup.py] is modelled as follows.
    - Paths are POSIX paths as [pathlib] keeps them: the list of their parts.
    - The file system is a finite map from paths to nodes (a directory, or a
      file with its content), without symbolic links; [Path.exists],
      [Path.mkdir] and [Path.unlink] follow [pathlib] and [os].
    - The storage client ([CloudBucketManager]), the extractor
      ([shutil.unpack_archive]) and the configuration ([LLMWareConfig]) are
      parameters: any function that reads and changes the file system and
      the remote side, and returns or raises.  A reference implementation of
      them, [Model], serves for the concrete runs.
    - A message handed to the logger is recorded, whatever the level the
      logger is set to. *)

From stdpp Require Import gmap strings list fin_maps.

Local Open Scope string_scope.

(** ** Python strings and [pathlib] paths *)

Module PurePath.

(** The character [/] (code 47). *)
Definition slash : Ascii.ascii :=
  Ascii.Ascii true true true true false true false false.

(** [s.split("/")]: the pieces of [s] between slashes, empty pieces kept. *)
Fixpoint split_slash (s : string) : list string :=
  match s with
  | EmptyString => [EmptyString]
  | String c rest =>
      if Ascii.eqb c slash then EmptyString :: split_slash rest
      else match split_slash rest with
           | piece :: pieces => String c piece :: pieces
           | [] => [String c EmptyString]
           end
  end.

(** A component that [pathlib] drops while parsing: empty, or a single dot. *)
Definition dropped (piece : string) : bool :=
  String.eqb piece "" || String.eqb piece ".".

(** The root of a POSIX path string: ["/"], or ["//"] when the string starts
    with exactly two slashes, or nothing for a relative path. *)
Definition root_of (s : string) : list string :=
  if String.prefix "///" s then ["/"]
  else if String.prefix "//" s then ["//"]
  else if String.prefix "/" s then ["/"]
  else [].

Definition is_absolute_str (s : string) : bool :=
  String.prefix "/" s.

(** [Path(s).parts]: a path is kept as the list of its parts, the root (if
    any) first, the way [pathlib] normalises a string when it builds a
    [Path].  [".."] is a part like any other ([pathlib] never collapses
    it). *)
Definition parse (s : string) : list string :=
  root_of s ++ List.filter (fun piece => negb (dropped piece)) (split_slash s).

(** [p / s] ([PurePath.__truediv__]): an absolute right operand replaces the
    left one, a relative one is appended part by part. *)
Definition joinpath (p : list string) (s : string) : list string :=
  if is_absolute_str s then parse s else p ++ parse s.

(** [p.parent]: the path without its last part; a root and the empty
    relative path are their own parents. *)
Definition is_anchor (p : list string) : bool :=
  match p with
  | [] => true
  | [r] => String.eqb r "/" || String.eqb r "//"
  | _ => false
  end.

Definition parent (p : list string) : list string :=
  if is_anchor p then p else removelast p.

Fixpoint join_slash (parts : list string) : string :=
  match parts with
  | [] => ""
  | [x] => x
  | x :: rest => x ++ "/" ++ join_slash rest
  end.

(** [str(p)]. *)
Definition str (p : list string) : string :=
  match p with
  | [] => "."
  | r :: rest =>
      if String.eqb r "/" || String.eqb r "//" then r ++ join_slash rest
      else join_slash p
  end.

End PurePath.

Abbreviation path := (list string) (only parsing).
Notation "p </> s" := (PurePath.joinpath p s) (at level 40, left associativity).

Example parse_tmp_ws : PurePath.parse "/tmp/ws" = ["/"; "tmp"; "ws"].
Proof. reflexivity. Qed.

Example parse_relative_dots : PurePath.parse "a/./b//c/" = ["a"; "b"; "c"].
Proof. reflexivity. Qed.

Example join_sample_files :
  PurePath.parse "/tmp/ws" </> "sample_files" = ["/"; "tmp"; "ws"; "sample_files"].
Proof. reflexivity. Qed.

Example join_absolute : PurePath.parse "/tmp/ws" </> "/etc/x" = ["/"; "etc"; "x"].
Proof. reflexivity. Qed.

Example str_join :
  PurePath.str (PurePath.parse "/tmp/ws" </> "sample_files" </> "sample_files.zip")
  = "/tmp/ws/sample_files/sample_files.zip".
Proof. reflexivity. Qed.

(** ** [str] and [parse] are inverse on the paths of the loaders *)

Module PathFacts.
Import PurePath.

Fixpoint no_slash (s : string) : bool :=
  match s with
  | EmptyString => true
  | String c rest => negb (Ascii.eqb c slash) && no_slash rest
  end.

(** A part as [parse] leaves it: no slash in it, not empty, not a dot. *)
Definition clean (piece : string) : bool := negb (dropped piece) && no_slash piece.

Definition is_root (r : string) : bool := String.eqb r "/" || String.eqb r "//".

(** The paths [pathlib] builds: a root or none, then clean parts. *)
Definition normal (p : list string) : bool :=
  match p with
  | [] => true
  | r :: rest => if is_root r then forallb clean rest else forallb clean p
  end.

Lemma split_slash_no_slash (s : string) : forallb no_slash (split_slash s) = true.
Proof.
  induction s as [|c s IH]; [done|]. cbn [split_slash].
  destruct (Ascii.eqb c slash) eqn:Hc; [done|].
  destruct (split_slash s) as [|piece pieces]; cbn in *; rewrite ?Hc; [done|].
  apply andb_prop in IH as [-> ->]. done.
Qed.

Lemma parts_clean (s : string) :
  forallb clean (List.filter (fun piece => negb (dropped piece)) (split_slash s)) = true.
Proof.
  pose proof (split_slash_no_slash s) as H.
  induction (split_slash s) as [|piece pieces IH]; [done|].
  cbn in *. apply andb_prop in H as [Hp Hps].
  destruct (dropped piece) eqn:Hd; cbn; [by apply IH|].
  unfold clean at 1. rewrite Hd, Hp. cbn. by apply IH.
Qed.

Lemma clean_not_root (c : string) : clean c = true -> is_root c = false.
Proof.
  unfold clean, is_root. intros [_ Hs]%andb_prop.
  destruct (String.eqb_spec c "/") as [->|_]; [done|].
  destruct (String.eqb_spec c "//") as [->|_]; done.
Qed.

Lemma clean_parts_normal (cs : list string) : forallb clean cs = true -> normal cs = true.
Proof.
  destruct cs as [|c cs]; [done|]. intros H. unfold normal.
  cbn in H. apply andb_prop in H as [Hc Hcs]. rewrite (clean_not_root _ Hc).
  cbn. by rewrite Hc.
Qed.

Lemma prefix_nil (s : string) : String.prefix "" s = true.
Proof. by destruct s. Qed.

Lemma root_of_cases (s : string) :
  root_of s = [] /\ is_absolute_str s = false
  \/ (root_of s = ["/"] \/ root_of s = ["//"]) /\ is_absolute_str s = true.
Proof.
  unfold root_of, is_absolute_str.
  destruct s as [|a [|b [|c s]]]; cbn [String.prefix];
    repeat (destruct (Ascii.ascii_dec _ _) as [_|_]); rewrite ?prefix_nil; auto.
Qed.

Lemma parse_normal (s : string) : normal (parse s) = true.
Proof.
  unfold parse. pose proof (parts_clean s) as Hc.
  destruct (root_of_cases s) as [[-> _]|[[-> | ->] _]]; cbn [app].
  - by apply clean_parts_normal.
  - done.
  - done.
Qed.

Lemma normal_app (p cs : list string) :
  normal p = true -> forallb clean cs = true -> normal (p ++ cs) = true.
Proof.
  intros Hp Hcs. destruct p as [|r rest]; [by apply clean_parts_normal|].
  cbn [app]. unfold normal in *. destruct (is_root r).
  - by rewrite forallb_app, Hp.
  - change (r :: rest ++ cs)%list with ((r :: rest) ++ cs)%list.
    by rewrite forallb_app, Hp.
Qed.

Lemma joinpath_normal (p : list string) (s : string) :
  normal p = true -> normal (p </> s) = true.
Proof.
  intros Hp. unfold joinpath.
  destruct (root_of_cases s) as [[Hr ->]|[_ ->]]; [|apply parse_normal].
  unfold parse. rewrite Hr. cbn [app]. apply normal_app; [done|apply parts_clean].
Qed.

Lemma split_slash_single (c : string) : no_slash c = true -> split_slash c = [c].
Proof.
  induction c as [|a c IH]; [done|]. cbn [split_slash no_slash].
  intros [Ha Hc]%andb_prop.
  apply negb_true_iff in Ha. rewrite Ha, (IH Hc). done.
Qed.

Lemma split_slash_cons (c s : string) :
  no_slash c = true -> split_slash (c ++ String slash s) = c :: split_slash s.
Proof.
  induction c as [|a c IH].
  - intros _. change ("" ++ String slash s) with (String slash s).
    cbn [split_slash]. by rewrite Ascii.eqb_refl.
  - cbn [no_slash]. intros [Ha Hc]%andb_prop. apply negb_true_iff in Ha.
    change (String a c ++ String slash s) with (String a (c ++ String slash s)).
    cbn [split_slash]. rewrite Ha, (IH Hc). done.
Qed.

Lemma split_join (cs : list string) :
  cs <> [] -> forallb no_slash cs = true -> split_slash (join_slash cs) = cs.
Proof.
  induction cs as [|c cs IH]; [done|]. intros _ [Hc Hcs]%andb_prop.
  destruct cs as [|c' cs]; [by apply split_slash_single|].
  change (join_slash (c :: c' :: cs)) with (c ++ String slash (join_slash (c' :: cs))).
  rewrite split_slash_cons by done. by rewrite IH.
Qed.

Lemma clean_no_slash (cs : list string) :
  forallb clean cs = true -> forallb no_slash cs = true.
Proof.
  induction cs as [|c cs IH]; [done|]. cbn. intros [[_ ->]%andb_prop H]%andb_prop.
  by rewrite IH.
Qed.

Lemma filter_clean (cs : list string) :
  forallb clean cs = true ->
  List.filter (fun piece => negb (dropped piece)) cs = cs.
Proof.
  induction cs as [|c cs IH]; [done|]. cbn. intros [[-> _]%andb_prop H]%andb_prop.
  by rewrite IH.
Qed.

(** The first character of a clean part is not a slash. *)
Lemma clean_head (c : string) :
  clean c = true -> exists a t, c = String a t /\ Ascii.eqb a slash = false.
Proof.
  unfold clean. destruct c as [|a t]; [done|]. cbn [no_slash].
  intros [_ [Ha _]%andb_prop]%andb_prop. apply negb_true_iff in Ha. eauto.
Qed.

Lemma join_slash_head (c : string) (cs : list string) :
  clean c = true ->
  exists a t, join_slash (c :: cs) = String a t /\ Ascii.eqb a slash = false.
Proof.
  intros (a & t & -> & Ha)%clean_head. destruct cs as [|c' cs].
  - by exists a, t.
  - by exists a, (t ++ "/" ++ join_slash (c' :: cs)).
Qed.

Lemma prefix_slash_cons (a : Ascii.ascii) (s t : string) :
  Ascii.eqb a slash = false -> String.prefix (String slash s) (String a t) = false.
Proof.
  intros Ha. cbn [String.prefix]. destruct (Ascii.ascii_dec _ a) as [<-|_]; [|done].
  by rewrite Ascii.eqb_refl in Ha.
Qed.

Lemma parse_relative (cs : list string) :
  cs <> [] -> forallb clean cs = true -> parse (join_slash cs) = cs.
Proof.
  intros Hne Hcs. unfold parse.
  rewrite split_join, filter_clean by eauto using clean_no_slash.
  destruct cs as [|c cs]; [done|]. cbn in Hcs. apply andb_prop in Hcs as [Hc _].
  destruct (join_slash_head c cs Hc) as (a & t & -> & Ha).
  unfold root_of. by rewrite !prefix_slash_cons.
Qed.

Lemma parse_rooted (r : string) (a : Ascii.ascii) (t : string) :
  r = "/" \/ r = "//" -> Ascii.eqb a slash = false ->
  parse (r ++ String a t)
  = r :: List.filter (fun piece => negb (dropped piece)) (split_slash (String a t)).
Proof.
  intros Hr Ha. destruct Hr as [-> | ->].
  - change ("/" ++ String a t) with (String slash (String a t)).
    unfold parse, root_of. cbn [String.prefix split_slash].
    destruct (Ascii.ascii_dec _ slash) as [_|Hn]; [|by destruct Hn].
    destruct (Ascii.ascii_dec _ a) as [<-|_]; [by rewrite Ascii.eqb_refl in Ha|].
    by rewrite Ascii.eqb_refl.
  - change ("//" ++ String a t) with (String slash (String slash (String a t))).
    unfold parse, root_of. cbn [String.prefix split_slash].
    destruct (Ascii.ascii_dec _ slash) as [_|Hn]; [|by destruct Hn].
    destruct (Ascii.ascii_dec _ a) as [<-|_]; [by rewrite Ascii.eqb_refl in Ha|].
    by rewrite Ascii.eqb_refl.
Qed.

(** [Path(str(p)) == p]. *)
Theorem parse_str (p : list string) : normal p = true -> parse (str p) = p.
Proof.
  destruct p as [|r rest]; [done|]. unfold normal, str. fold (is_root r).
  destruct (is_root r) eqn:Hr; [|by apply parse_relative].
  intros Hrest.
  assert (Hcases : r = "/" \/ r = "//").
  { unfold is_root in Hr. apply orb_prop in Hr as [H|H];
      apply String.eqb_eq in H; auto. }
  destruct rest as [|c cs]; [by destruct Hcases as [-> | ->]|].
  pose proof (parse_relative (c :: cs) ltac:(done) Hrest) as Hrel.
  cbn in Hrest. apply andb_prop in Hrest as [Hc _].
  destruct (join_slash_head c cs Hc) as (a & t & Hj & Ha).
  rewrite Hj in *. rewrite parse_rooted by done. f_equal.
  unfold parse, root_of in Hrel.
  by rewrite !prefix_slash_cons in Hrel.
Qed.

End PathFacts.

(** ** The file system

    A finite map from paths to nodes.  There are no symbolic links, and the
    anchors (a root, or the current directory for a relative path) always
    exist as directories. *)

Inductive blob :=
  | Raw (data : string)
  | ZipArchive (members : list (list string * string)).

Inductive node :=
  | Dir
  | File (content : blob).

Abbreviation filesystem := (gmap (list string) node) (only parsing).

(** ** Python exceptions *)

Inductive pyclass :=
  | FileNotFoundError
  | FileExistsError
  | NotADirectoryError
  | IsADirectoryError
  | RuntimeError
  | OtherException (name : string)
  | BaseExceptionOnly (name : string).

(** [issubclass(c, Exception)]: everything but the classes that derive from
    [BaseException] alone ([KeyboardInterrupt], [SystemExit], ...). *)
Definition is_Exception (c : pyclass) : bool :=
  match c with
  | BaseExceptionOnly _ => false
  | _ => true
  end.

(** An exception object: its class, [str(e)] and [e.__cause__]. *)
#[warnings="-register-all"]
Inductive exn :=
  | PyExc (cls : pyclass) (msg : string) (cause : option exn).

Definition exn_class (e : exn) : pyclass := let (c, _, _) := e in c.
Definition exn_str (e : exn) : string := let (_, m, _) := e in m.
Definition exn_cause (e : exn) : option exn := let (_, _, c) := e in c.

Inductive outcome (A : Type) :=
  | Returned (a : A)
  | Raised (e : exn).
Arguments Returned {A} a.
Arguments Raised {A} e.

Module Os.

Definition node_at (fs : filesystem) (p : path) : option node :=
  if PurePath.is_anchor p then Some Dir else fs !! p.

(** [Path.exists()] and [Path.is_dir()]. *)
Definition path_exists (fs : filesystem) (p : path) : bool :=
  match node_at fs p with Some _ => true | None => false end.

Definition is_dir (fs : filesystem) (p : path) : bool :=
  match node_at fs p with Some Dir => true | _ => false end.

Definition is_file (fs : filesystem) (p : path) : bool :=
  match node_at fs p with Some (File _) => true | _ => false end.

Definition os_error (c : pyclass) (what : string) (p : path) : exn :=
  PyExc c (what ++ ": '" ++ PurePath.str p ++ "'") None.

(** [os.mkdir(p)]: one directory, whose parent must be a directory. *)
Definition os_mkdir (fs : filesystem) (p : path) : filesystem + exn :=
  match node_at fs p with
  | Some _ => inr (os_error FileExistsError "[Errno 17] File exists" p)
  | None =>
      match node_at fs (PurePath.parent p) with
      | None => inr (os_error FileNotFoundError "[Errno 2] No such file or directory" p)
      | Some (File _) => inr (os_error NotADirectoryError "[Errno 20] Not a directory" p)
      | Some Dir => inl (<[p := Dir]> fs)
      end
  end.

Definition is_FileNotFoundError (e : exn) : bool :=
  match exn_class e with FileNotFoundError => true | _ => false end.

(** [Path.mkdir(parents=False, exist_ok=...)]. *)
Definition mkdir_leaf (fs : filesystem) (p : path) (exist_ok : bool)
  : filesystem + exn :=
  match os_mkdir fs p with
  | inl fs' => inl fs'
  | inr e =>
      if is_FileNotFoundError e then inr e
      else if negb exist_ok || negb (is_dir fs p) then inr e
      else inl fs
  end.

(** [Path.mkdir(parents=True, exist_ok=...)], by recursion on the reversed
    path [r] (so that the parent is the tail): try [os.mkdir]; on
    [FileNotFoundError] make the parent with [parents=True, exist_ok=True]
    and then the directory itself with [parents=False]; on another [OSError]
    accept an existing directory when [exist_ok]. *)
Fixpoint mkdir_parents_rev (r : list string) (exist_ok : bool) (fs : filesystem)
  : filesystem + exn :=
  match os_mkdir fs (rev r) with
  | inl fs' => inl fs'
  | inr e =>
      if is_FileNotFoundError e then
        match r with
        | [] => inr e
        | _ :: r' =>
            if PurePath.is_anchor (rev r) then inr e
            else match mkdir_parents_rev r' true fs with
                 | inr e' => inr e'
                 | inl fs' => mkdir_leaf fs' (rev r) exist_ok
                 end
        end
      else if negb exist_ok || negb (is_dir fs (rev r)) then inr e
      else inl fs
  end.

Definition mkdir (fs : filesystem) (p : path) (parents exist_ok : bool)
  : filesystem + exn :=
  if parents then mkdir_parents_rev (rev p) exist_ok fs
  else mkdir_leaf fs p exist_ok.

(** [Path.unlink()]: removes a file; a missing path or a directory raises. *)
Definition unlink (fs : filesystem) (p : path) : filesystem + exn :=
  match node_at fs p with
  | Some (File _) => inl (delete p fs)
  | Some Dir => inr (os_error IsADirectoryError "[Errno 21] Is a directory" p)
  | None => inr (os_error FileNotFoundError "[Errno 2] No such file or directory" p)
  end.

End Os.

(** ** The world and the monad of the loaders *)

(** The calls a loader makes to its collaborators, as it passes the
    arguments. *)
Inductive call :=
  | CallSetupWorkspace
  | CallPull (object_key local_file bucket_name : string)
  | CallUnpack (filename extract_dir format : string).

Inductive level := INFO | ERROR.

(** [X] is whatever the collaborators depend on besides the local file
    system (the remote bucket, the network, ...). *)
Record world (X : Type) := World {
  fs : filesystem;
  ext : X;
  calls : list call;
  logs : list (level * string);
}.
Arguments World {X} _ _ _ _.
Arguments fs {X} _.
Arguments ext {X} _.
Arguments calls {X} _.
Arguments logs {X} _.

(** An external collaborator: it reads and changes the file system and its
    own state, and returns or raises. *)
Definition collaborator (X : Type) : Type :=
  filesystem -> X -> filesystem * X * outcome unit.

Definition M (X A : Type) : Type := world X -> world X * outcome A.

Definition ret {X A : Type} (a : A) : M X A := fun w => (w, Returned a).

Definition bind {X A B : Type} (m : M X A) (k : A -> M X B) : M X B :=
  fun w =>
    match m w with
    | (w', Returned a) => k a w'
    | (w', Raised e) => (w', Raised e)
    end.

Definition raise {X A : Type} (e : exn) : M X A := fun w => (w, Raised e).

(** [try: body  except Exception as e: handler e]. *)
Definition try_except {X A : Type} (body : M X A) (handler : exn -> M X A) : M X A :=
  fun w =>
    match body w with
    | (w', Returned a) => (w', Returned a)
    | (w', Raised e) =>
        if is_Exception (exn_class e) then handler e w' else (w', Raised e)
    end.

Declare Scope py_scope.
Delimit Scope py_scope with py.
Notation "x <- m ;; k" := (bind m (fun x => k))
  (at level 100, m at next level, right associativity) : py_scope.
Notation "m ;; k" := (bind m (fun _ => k))
  (at level 100, right associativity) : py_scope.
Notation "'when' b 'then' m ;; k" := (bind (if b then m else ret tt) (fun _ => k))
  (at level 100, b at next level, m at next level, right associativity) : py_scope.

Definition logger_info {X : Type} (message : string) : M X unit :=
  fun w => (World (fs w) (ext w) (calls w) (logs w ++ [(INFO, message)]), Returned tt).

Definition logger_error {X : Type} (message : string) : M X unit :=
  fun w => (World (fs w) (ext w) (calls w) (logs w ++ [(ERROR, message)]), Returned tt).

(** Calling a collaborator: the call is recorded, then it runs. *)
Definition invoke {X : Type} (c : call) (f : collaborator X) : M X unit :=
  fun w =>
    let '(fs', ext', r) := f (fs w) (ext w) in
    (World fs' ext' (calls w ++ [c]) (logs w), r).

(** Reading the file system, and the two [pathlib] operations that change
    it. *)
Definition exists_ {X : Type} (p : path) : M X bool :=
  fun w => (w, Returned (Os.path_exists (fs w) p)).

Definition lift_fs {X : Type} (f : filesystem -> filesystem + exn) : M X unit :=
  fun w =>
    match f (fs w) with
    | inl fs' => (World fs' (ext w) (calls w) (logs w), Returned tt)
    | inr e => (w, Raised e)
    end.

Definition mkdir {X : Type} (p : path) (parents exist_ok : bool) : M X unit :=
  lift_fs (fun fs => Os.mkdir fs p parents exist_ok).

Definition unlink {X : Type} (p : path) : M X unit :=
  lift_fs (fun fs => Os.unlink fs p).

(** ** The collaborators of [setup.py] *)

(** [llmware.resources.CloudBucketManager]: the one method the loaders call.
    Its return value (a list of the objects downloaded) is not used by the
    loaders. *)
Record CloudBucketManager (X : Type) := {
  pull_file_from_public_s3 :
    forall (object_key local_file bucket_name : string), collaborator X;
}.
Arguments pull_file_from_public_s3 {X} _ _ _ _.

(** [llmware.configs.LLMWareConfig]: the workspace root, the configured values
    and the workspace initialiser. *)
Record LLMWareConfig (X : Type) := {
  get_llmware_path : string;
  get_config : string -> string;
  setup_llmware_workspace : collaborator X;
}.
Arguments get_llmware_path {X} _.
Arguments get_config {X} _ _.
Arguments setup_llmware_workspace {X} _.

(** ** [class Setup] *)

Module Setup.
Section Setup.

Context {X : Type}.

(** The module-level [config], the [CloudBucketManager()] the loaders build,
    and [shutil.unpack_archive(filename, extract_dir, format)]. *)
Variable config : LLMWareConfig X.
Variable new_CloudBucketManager : CloudBucketManager X.
Variable shutil_unpack_archive :
  forall (filename extract_dir format : string), collaborator X.

Local Open Scope py_scope.

Definition _download_and_unpack
    (folder_name : string) (sample_files_path : path)
    (bucket_manager : CloudBucketManager X) (bucket_name : string) : M X unit :=
  let remote_zip := folder_name ++ ".zip" in
  let local_zip := sample_files_path </> remote_zip in
  try_except
    (logger_info ("Downloading '" ++ remote_zip ++ "' from bucket '" ++ bucket_name ++ "'...") ;;
     invoke (CallPull remote_zip (PurePath.str local_zip) bucket_name)
       (pull_file_from_public_s3 bucket_manager remote_zip (PurePath.str local_zip) bucket_name) ;;
     logger_info ("Extracting '" ++ PurePath.str local_zip ++ "' to '"
                  ++ PurePath.str sample_files_path ++ "'...") ;;
     invoke (CallUnpack (PurePath.str local_zip) (PurePath.str sample_files_path) "zip")
       (shutil_unpack_archive (PurePath.str local_zip) (PurePath.str sample_files_path) "zip") ;;
     logger_info ("Removing temporary file '" ++ PurePath.str local_zip ++ "'...") ;;
     unlink local_zip ;;
     logger_info ("Successfully downloaded and extracted '" ++ folder_name ++ "'."))
    (fun e =>
       logger_error ("Failed to download and extract '" ++ folder_name ++ "': " ++ exn_str e) ;;
       raise (PyExc RuntimeError
                ("Failed to download and extract '" ++ folder_name ++ "': " ++ exn_str e)
                (Some e))).

(** [over_write: bool = False]. *)
Definition load_sample_files (over_write : option bool) : M X path :=
  let over_write := default false over_write in
  let workspace_path := PurePath.parse (get_llmware_path config) in
  let sample_files_path := workspace_path </> "sample_files" in
  let bucket_name := get_config config "llmware_sample_files_bucket" in
  let bucket_manager := new_CloudBucketManager in
  ws_exists <- exists_ workspace_path ;;
  when negb ws_exists then
    (logger_info ("Workspace path '" ++ PurePath.str workspace_path
                  ++ "' does not exist. Setting up workspace...") ;;
     invoke CallSetupWorkspace (setup_llmware_workspace config)) ;;
  sample_exists <- exists_ sample_files_path ;;
  if sample_exists && negb over_write then
    logger_info ("Sample files path already exists and overwrite is disabled: '"
                 ++ PurePath.str sample_files_path ++ "'.") ;;
    ret sample_files_path
  else
    mkdir sample_files_path true true ;;
    logger_info "Downloading general sample files from AWS S3 bucket..." ;;
    _download_and_unpack "sample_files" sample_files_path bucket_manager bucket_name ;;
    ret sample_files_path.

(** [over_write: bool = False, small_only: bool = True]. *)
Definition load_voice_sample_files (over_write small_only : option bool) : M X path :=
  let over_write := default false over_write in
  let small_only := default true small_only in
  let workspace_path := PurePath.parse (get_llmware_path config) in
  let folder_suffix :=
    if small_only then "voice_sample_files_small" else "voice_sample_files" in
  let sample_files_path := workspace_path </> folder_suffix in
  let bucket_name := get_config config "llmware_sample_files_bucket" in
  let bucket_manager := new_CloudBucketManager in
  ws_exists <- exists_ workspace_path ;;
  when negb ws_exists then
    (logger_info ("Workspace path '" ++ PurePath.str workspace_path
                  ++ "' does not exist. Setting up workspace...") ;;
     invoke CallSetupWorkspace (setup_llmware_workspace config)) ;;
  sample_exists <- exists_ sample_files_path ;;
  if sample_exists && negb over_write then
    logger_info ("Voice sample files path already exists and overwrite is disabled: '"
                 ++ PurePath.str sample_files_path ++ "'.") ;;
    ret sample_files_path
  else
    mkdir sample_files_path true true ;;
    let folder_name := if small_only then "voice_small" else "voice_all" in
    logger_info ("Downloading " ++ (if small_only then "small" else "all")
                 ++ " voice sample files from AWS S3 bucket...") ;;
    _download_and_unpack folder_name sample_files_path bucket_manager bucket_name ;;
    ret sample_files_path.

(** [sample_folder: str = "microsoft_ir", over_write: bool = False]. *)
Definition load_selected_sample_files
    (sample_folder : option string) (over_write : option bool) : M X path :=
  let sample_folder := default "microsoft_ir" sample_folder in
  let over_write := default false over_write in
  let workspace_path := PurePath.parse (get_llmware_path config) in
  let sample_files_path := workspace_path </> sample_folder in
  let bucket_name := get_config config "llmware_sample_files_bucket" in
  let bucket_manager := new_CloudBucketManager in
  ws_exists <- exists_ workspace_path ;;
  when negb ws_exists then
    (logger_info ("Workspace path '" ++ PurePath.str workspace_path
                  ++ "' does not exist. Setting up workspace...") ;;
     invoke CallSetupWorkspace (setup_llmware_workspace config)) ;;
  sample_exists <- exists_ sample_files_path ;;
  if sample_exists && negb over_write then
    logger_info ("Selected sample files path already exists and overwrite is disabled: '"
                 ++ PurePath.str sample_files_path ++ "'.") ;;
    ret sample_files_path
  else
    mkdir sample_files_path true true ;;
    logger_info ("Downloading selected sample files '" ++ sample_folder
                 ++ "' from AWS S3 bucket...") ;;
    _download_and_unpack sample_folder sample_files_path bucket_manager bucket_name ;;
    ret sample_files_path.

End Setup.
End Setup.

(** ** A reference implementation of the collaborators

    The storage client, the extractor and the workspace initialiser are not
    part of [setup.py].  The general theorems below hold for whatever they
    do; the concrete scenarios run the loaders against this model. *)

Module Model.

(** The remote side: the objects of each bucket, by bucket name and key. *)
Abbreviation remote := (gmap (string * string) blob) (only parsing).

Definition client_error : exn :=
  PyExc (OtherException "ClientError")
    "An error occurred (404) when calling the HeadObject operation: Not Found" None.

(** Modelled from the spec: [CloudBucketManager.pull_file_from_public_s3]
    (module [llmware.resources]) "fetches a single named object from a public
    bucket into a local path".  A missing object raises; otherwise the object
    is written at the local path, replacing a file that is there; the
    directory of the local path must exist. *)
Definition pull (object_key local_file bucket_name : string) : collaborator remote :=
  fun fs objects =>
    match objects !! (bucket_name, object_key) with
    | None => (fs, objects, Raised client_error)
    | Some b =>
        let p := PurePath.parse local_file in
        match Os.node_at fs p, Os.node_at fs (PurePath.parent p) with
        | Some Dir, _ =>
            (fs, objects, Raised (Os.os_error IsADirectoryError "[Errno 21] Is a directory" p))
        | _, Some Dir => (<[p := File b]> fs, objects, Returned tt)
        | _, Some (File _) =>
            (fs, objects, Raised (Os.os_error NotADirectoryError "[Errno 20] Not a directory" p))
        | _, None =>
            (fs, objects,
             Raised (Os.os_error FileNotFoundError "[Errno 2] No such file or directory" p))
        end
    end.

Definition bucket_manager : CloudBucketManager remote :=
  {| pull_file_from_public_s3 := pull |}.

(** Modelled from the spec: the extraction of one member of an archive
    ([shutil.unpack_archive], of the standard library) under [dest]: the
    directories on the way are made, then the file is written (over a file
    that is there). *)
Definition extract_member (dest : path) (member : list string * string)
    (fs : filesystem) : filesystem + exn :=
  let target := (dest ++ member.1)%list in
  match Os.mkdir fs (PurePath.parent target) true true with
  | inr e => inr e
  | inl fs' =>
      match Os.node_at fs' target with
      | Some Dir => inr (Os.os_error IsADirectoryError "[Errno 21] Is a directory" target)
      | _ => inl (<[target := File (Raw member.2)]> fs')
      end
  end.

(** Modelled from the spec: the members are extracted in order; a failure
    stops the extraction and leaves what was written so far. *)
Fixpoint extract_all (dest : path) (members : list (list string * string))
    (fs : filesystem) : filesystem * outcome unit :=
  match members with
  | [] => (fs, Returned tt)
  | m :: rest =>
      match extract_member dest m fs with
      | inr e => (fs, Raised e)
      | inl fs' => extract_all dest rest fs'
      end
  end.

Definition read_error (filename : string) : exn :=
  PyExc (OtherException "ReadError") (filename ++ " is not a zip file") None.

(** Modelled from the spec: [shutil.unpack_archive] "unpacks a zip archive
    into a directory", "entries relative to archive root land directly under"
    the directory.  Anything that is not a zip archive raises [ReadError]. *)
Definition unpack_archive (filename extract_dir format : string) : collaborator remote :=
  fun fs objects =>
    if negb (String.eqb format "zip") then
      (fs, objects,
       Raised (PyExc (OtherException "ValueError")
                 ("Unknown unpack format '" ++ format ++ "'") None))
    else
      match Os.node_at fs (PurePath.parse filename) with
      | Some (File (ZipArchive members)) =>
          let '(fs', r) := extract_all (PurePath.parse extract_dir) members fs in
          (fs', objects, r)
      | _ => (fs, objects, Raised (read_error filename))
      end.

(** Modelled from the spec: the workspace locator "resolves a base local
    directory, creating it if missing". *)
Definition setup_workspace (llmware_path : string) : collaborator remote :=
  fun fs objects =>
    match Os.mkdir fs (PurePath.parse llmware_path) true true with
    | inl fs' => (fs', objects, Returned tt)
    | inr e => (fs, objects, Raised e)
    end.

(** Modelled from the spec: the configuration ([llmware.configs]) gives the
    workspace root and the name of the bucket of the sample files. *)
Definition config (llmware_path bucket : string) : LLMWareConfig remote :=
  {| get_llmware_path := llmware_path;
     get_config := fun key =>
       if String.eqb key "llmware_sample_files_bucket" then bucket else "";
     setup_llmware_workspace := setup_workspace llmware_path |}.

Definition load_sample_files ws bucket :=
  Setup.load_sample_files (config ws bucket) bucket_manager unpack_archive.
Definition load_voice_sample_files ws bucket :=
  Setup.load_voice_sample_files (config ws bucket) bucket_manager unpack_archive.
Definition load_selected_sample_files ws bucket :=
  Setup.load_selected_sample_files (config ws bucket) bucket_manager unpack_archive.

End Model.

(** ** Facts about the file-system operations *)

Section OsFacts.

#[local] Arguments Os.os_mkdir : simpl never.
#[local] Arguments Os.mkdir_leaf : simpl never.
#[local] Arguments Os.is_dir : simpl never.
#[local] Arguments Os.node_at : simpl never.
#[local] Arguments PurePath.is_anchor : simpl never.

Implicit Types (fs : gmap (list string) node) (p q : list string).

Lemma node_at_insert_eq fs p n :
  PurePath.is_anchor p = false -> Os.node_at (<[p := n]> fs) p = Some n.
Proof. intros Hp. unfold Os.node_at. rewrite Hp. apply lookup_insert_eq. Qed.

Lemma node_at_insert_ne fs p q n :
  p <> q -> Os.node_at (<[p := n]> fs) q = Os.node_at fs q.
Proof.
  intros Hne. unfold Os.node_at. destruct (PurePath.is_anchor q); [done|].
  by apply lookup_insert_ne.
Qed.

Lemma node_at_delete_eq fs p :
  PurePath.is_anchor p = false -> Os.node_at (delete p fs) p = None.
Proof. intros Hp. unfold Os.node_at. rewrite Hp. apply lookup_delete_eq. Qed.

Lemma node_at_delete_ne fs p q :
  p <> q -> Os.node_at (delete p fs) q = Os.node_at fs q.
Proof.
  intros Hne. unfold Os.node_at. destruct (PurePath.is_anchor q); [done|].
  by apply lookup_delete_ne.
Qed.

Lemma node_at_anchor fs p : PurePath.is_anchor p = true -> Os.node_at fs p = Some Dir.
Proof. intros Hp. unfold Os.node_at. by rewrite Hp. Qed.

Lemma node_at_None_not_anchor fs p :
  Os.node_at fs p = None -> PurePath.is_anchor p = false.
Proof. unfold Os.node_at. by destruct (PurePath.is_anchor p). Qed.

(** [os.mkdir] only adds one directory, at a path that was free. *)
Lemma os_mkdir_inl fs p fs' :
  Os.os_mkdir fs p = inl fs' ->
  Os.node_at fs p = None /\ fs' = <[p := Dir]> fs.
Proof.
  unfold Os.os_mkdir. destruct (Os.node_at fs p); [done|].
  destruct (Os.node_at fs (PurePath.parent p)) as [[|]|]; naive_solver.
Qed.

Lemma os_mkdir_keeps fs p fs' q n :
  Os.os_mkdir fs p = inl fs' -> Os.node_at fs q = Some n -> Os.node_at fs' q = Some n.
Proof.
  intros [Hfree ->]%os_mkdir_inl Hq.
  rewrite node_at_insert_ne; [done|]. intros ->. congruence.
Qed.

Lemma os_mkdir_makes fs p fs' : Os.os_mkdir fs p = inl fs' -> Os.is_dir fs' p = true.
Proof.
  intros [Hfree ->]%os_mkdir_inl. unfold Os.is_dir.
  by rewrite node_at_insert_eq by eauto using node_at_None_not_anchor.
Qed.

(** What [os.mkdir] leaves alone: every path but the new directory. *)
Lemma os_mkdir_frame fs p fs' q :
  Os.os_mkdir fs p = inl fs' -> q <> p -> Os.node_at fs' q = Os.node_at fs q.
Proof. intros [_ ->]%os_mkdir_inl Hne. by rewrite node_at_insert_ne. Qed.

Lemma mkdir_leaf_keeps fs p ok fs' q n :
  Os.mkdir_leaf fs p ok = inl fs' -> Os.node_at fs q = Some n -> Os.node_at fs' q = Some n.
Proof.
  unfold Os.mkdir_leaf. destruct (Os.os_mkdir fs p) as [fs1|e] eqn:E.
  - intros [= <-]. eauto using os_mkdir_keeps.
  - destruct (Os.is_FileNotFoundError e); [done|].
    destruct (negb ok || negb (Os.is_dir fs p)); [done|]. by intros [= <-].
Qed.

Lemma mkdir_leaf_makes fs p fs' :
  Os.mkdir_leaf fs p true = inl fs' -> Os.is_dir fs' p = true.
Proof.
  unfold Os.mkdir_leaf. destruct (Os.os_mkdir fs p) as [fs1|e] eqn:E.
  - intros [= <-]. eauto using os_mkdir_makes.
  - destruct (Os.is_FileNotFoundError e); [done|]. simpl.
    destruct (Os.is_dir fs p) eqn:D; [|done]. by intros [= <-].
Qed.

Lemma mkdir_parents_rev_eq r ok fs :
  Os.mkdir_parents_rev r ok fs =
  match Os.os_mkdir fs (rev r) with
  | inl fs' => inl fs'
  | inr e =>
      if Os.is_FileNotFoundError e then
        match r with
        | [] => inr e
        | _ :: r' =>
            if PurePath.is_anchor (rev r) then inr e
            else match Os.mkdir_parents_rev r' true fs with
                 | inr e' => inr e'
                 | inl fs' => Os.mkdir_leaf fs' (rev r) ok
                 end
        end
      else if negb ok || negb (Os.is_dir fs (rev r)) then inr e
      else inl fs
  end.
Proof. by destruct r. Qed.

Lemma mkdir_parents_rev_keeps r ok fs fs' q n :
  Os.mkdir_parents_rev r ok fs = inl fs' ->
  Os.node_at fs q = Some n -> Os.node_at fs' q = Some n.
Proof.
  revert ok fs fs'. induction r as [|x r IH]; intros ok fs fs';
    rewrite mkdir_parents_rev_eq;
    (destruct (Os.os_mkdir fs _) as [fs1|e] eqn:E;
      [intros [= <-]; eauto using os_mkdir_keeps|]);
    destruct (Os.is_FileNotFoundError e); try done;
    try (destruct (negb ok || negb (Os.is_dir fs _)); [done|]; by intros [= <-]).
  destruct (PurePath.is_anchor _); [done|].
  destruct (Os.mkdir_parents_rev r true fs) as [fs1|e1] eqn:E1; [|done].
  intros Hleaf Hq. eapply mkdir_leaf_keeps; eauto.
Qed.

Lemma mkdir_parents_rev_makes r fs fs' :
  Os.mkdir_parents_rev r true fs = inl fs' -> Os.is_dir fs' (rev r) = true.
Proof.
  rewrite mkdir_parents_rev_eq.
  destruct (Os.os_mkdir fs _) as [fs1|e] eqn:E;
    [intros [= <-]; eauto using os_mkdir_makes|].
  destruct (Os.is_FileNotFoundError e).
  - destruct r as [|x r]; [done|].
    destruct (PurePath.is_anchor _); [done|].
    destruct (Os.mkdir_parents_rev r true fs) as [fs1|e1]; [|done].
    apply mkdir_leaf_makes.
  - change (negb true) with false. rewrite orb_false_l.
    destruct (Os.is_dir fs (rev r)) eqn:D; [|done]. by intros [= <-].
Qed.

(** [mkdir(parents=True, exist_ok=True)] removes and replaces nothing. *)
Lemma mkdir_keeps fs p fs' q n :
  Os.mkdir fs p true true = inl fs' ->
  Os.node_at fs q = Some n -> Os.node_at fs' q = Some n.
Proof. apply mkdir_parents_rev_keeps. Qed.

(** ... and when it returns, the directory is there. *)
Lemma mkdir_makes fs p fs' :
  Os.mkdir fs p true true = inl fs' -> Os.is_dir fs' p = true.
Proof.
  intros H%mkdir_parents_rev_makes. by rewrite rev_involutive in H.
Qed.


Lemma is_dir_exists fs p : Os.is_dir fs p = true -> Os.path_exists fs p = true.
Proof. unfold Os.is_dir, Os.path_exists. by destruct (Os.node_at fs p) as [[|]|]. Qed.

Lemma mkdir_keeps_dir fs p fs' q :
  Os.mkdir fs p true true = inl fs' -> Os.is_dir fs q = true -> Os.is_dir fs' q = true.
Proof.
  unfold Os.is_dir. intros Hm Hq.
  destruct (Os.node_at fs q) as [[|]|] eqn:E; try done.
  by rewrite (mkdir_keeps _ _ _ _ _ Hm E).
Qed.

(** [unlink] removes the file, and nothing else. *)
Lemma unlink_inl fs p fs' :
  Os.unlink fs p = inl fs' ->
  Os.is_file fs p = true /\ PurePath.is_anchor p = false /\ fs' = delete p fs.
Proof.
  unfold Os.unlink, Os.is_file, Os.node_at.
  destruct (PurePath.is_anchor p); [done|].
  destruct (fs !! p) as [[|]|]; naive_solver.
Qed.

Lemma unlink_gone fs p fs' : Os.unlink fs p = inl fs' -> Os.path_exists fs' p = false.
Proof.
  intros (_ & Hp & ->)%unlink_inl. unfold Os.path_exists.
  by rewrite node_at_delete_eq.
Qed.

Lemma unlink_frame fs p fs' q :
  Os.unlink fs p = inl fs' -> q <> p -> Os.node_at fs' q = Os.node_at fs q.
Proof. intros (_ & _ & ->)%unlink_inl Hne. by rewrite node_at_delete_ne. Qed.

Lemma unlink_keeps_dir fs p fs' q :
  Os.unlink fs p = inl fs' -> Os.is_dir fs q = true -> Os.is_dir fs' q = true.
Proof.
  intros Hu Hq. destruct (decide (q = p)) as [->|Hne].
  - apply unlink_inl in Hu as (Hf & _ & _). unfold Os.is_file, Os.is_dir in *.
    by destruct (Os.node_at fs p) as [[|]|].
  - unfold Os.is_dir. by rewrite (unlink_frame _ _ _ _ Hu Hne).
Qed.

End OsFacts.

(** ** The three loaders, uniformly *)

(** A call of one of the three public loaders, with its arguments ([None]
    for an argument left to its default). *)
Inductive loader :=
  | LoadSampleFiles (over_write : option bool)
  | LoadVoiceSampleFiles (over_write small_only : option bool)
  | LoadSelectedSampleFiles (sample_folder : option string) (over_write : option bool).

Definition over_write_of (l : loader) : bool :=
  match l with
  | LoadSampleFiles ow | LoadVoiceSampleFiles ow _ | LoadSelectedSampleFiles _ ow =>
      default false ow
  end.

(** The directory under the workspace root: line 118, 155 and 194 of
    [setup.py]. *)
Definition local_subdir_name (l : loader) : string :=
  match l with
  | LoadSampleFiles _ => "sample_files"
  | LoadVoiceSampleFiles _ small_only =>
      if default true small_only then "voice_sample_files_small" else "voice_sample_files"
  | LoadSelectedSampleFiles sample_folder _ => default "microsoft_ir" sample_folder
  end.

(** The [folder_name] handed to [_download_and_unpack]: line 133, 170 and
    209. *)
Definition remote_archive_name (l : loader) : string :=
  match l with
  | LoadSampleFiles _ => "sample_files"
  | LoadVoiceSampleFiles _ small_only =>
      if default true small_only then "voice_small" else "voice_all"
  | LoadSelectedSampleFiles sample_folder _ => default "microsoft_ir" sample_folder
  end.

(** Lines 87-88: [remote_zip] and [local_zip]. *)
Definition archive_key_of (folder_name : string) : string := folder_name ++ ".zip".
Definition archive_path_of (folder_name : string) (sample_files_path : path) : path :=
  sample_files_path </> archive_key_of folder_name.

Definition is_pull (c : call) : bool :=
  match c with CallPull _ _ _ => true | _ => false end.

Definition is_unpack (c : call) : bool :=
  match c with CallUnpack _ _ _ => true | _ => false end.

(** The calls made between two worlds of one run. *)
Definition new_calls {X : Type} (before after : world X) : list call :=
  drop (length (calls before)) (calls after).

Definition with_fs {X : Type} (fs' : filesystem) (w : world X) : world X :=
  World fs' (ext w) (calls w) (logs w).

Definition with_log {X : Type} (entry : level * string) (w : world X) : world X :=
  World (fs w) (ext w) (calls w) (logs w ++ [entry]).

Arguments with_fs {X} _ _ /.
Arguments with_log {X} _ _ /.

Section Loaders.

Context {X : Type}.
Variable config : LLMWareConfig X.
Variable bucket_manager : CloudBucketManager X.
Variable shutil_unpack_archive :
  forall (filename extract_dir format : string), collaborator X.

Definition run (l : loader) : M X path :=
  match l with
  | LoadSampleFiles ow =>
      Setup.load_sample_files config bucket_manager shutil_unpack_archive ow
  | LoadVoiceSampleFiles ow small =>
      Setup.load_voice_sample_files config bucket_manager shutil_unpack_archive ow small
  | LoadSelectedSampleFiles folder ow =>
      Setup.load_selected_sample_files config bucket_manager shutil_unpack_archive folder ow
  end.

Definition workspace_path : path := PurePath.parse (get_llmware_path config).
Definition bucket_name : string := get_config config "llmware_sample_files_bucket".
Definition target (l : loader) : path := workspace_path </> local_subdir_name l.
Definition remote_zip (l : loader) : string := archive_key_of (remote_archive_name l).
Definition local_zip (l : loader) : path :=
  archive_path_of (remote_archive_name l) (target l).

(** Lines 122-124 (and 160-162, 198-200): the workspace is set up when its
    root is missing. *)
Definition setup_message : string :=
  "Workspace path '" ++ PurePath.str workspace_path
  ++ "' does not exist. Setting up workspace...".

Definition ensure_workspace (w : world X) : world X * outcome unit :=
  if Os.path_exists (fs w) workspace_path then (w, Returned tt)
  else invoke CallSetupWorkspace (setup_llmware_workspace config)
         (with_log (INFO, setup_message) w).

Definition exists_message (l : loader) : string :=
  match l with
  | LoadSampleFiles _ => "Sample files path already exists and overwrite is disabled: '"
  | LoadVoiceSampleFiles _ _ =>
      "Voice sample files path already exists and overwrite is disabled: '"
  | LoadSelectedSampleFiles _ _ =>
      "Selected sample files path already exists and overwrite is disabled: '"
  end ++ PurePath.str (target l) ++ "'.".

Definition download_message (l : loader) : string :=
  match l with
  | LoadSampleFiles _ => "Downloading general sample files from AWS S3 bucket..."
  | LoadVoiceSampleFiles _ small_only =>
      "Downloading " ++ (if default true small_only then "small" else "all")
      ++ " voice sample files from AWS S3 bucket..."
  | LoadSelectedSampleFiles sample_folder _ =>
      "Downloading selected sample files '" ++ default "microsoft_ir" sample_folder
      ++ "' from AWS S3 bucket..."
  end.

(** The result of a loader whose last step is [_download_and_unpack]. *)
Definition returning {A : Type} (a : A) (r : world X * outcome unit)
  : world X * outcome A :=
  match r with
  | (w, Returned _) => (w, Returned a)
  | (w, Raised e) => (w, Raised e)
  end.

(** Every loader is the same sequence: workspace, short-circuit test,
    [mkdir], [_download_and_unpack]. *)
Lemma run_unfold (l : loader) (w : world X) :
  run l w =
  match ensure_workspace w with
  | (w1, Raised e) => (w1, Raised e)
  | (w1, Returned _) =>
      if Os.path_exists (fs w1) (target l) && negb (over_write_of l)
      then (with_log (INFO, exists_message l) w1, Returned (target l))
      else
        match Os.mkdir (fs w1) (target l) true true with
        | inr e => (w1, Raised e)
        | inl fs2 =>
            returning (target l)
              (Setup._download_and_unpack shutil_unpack_archive
                 (remote_archive_name l) (target l) bucket_manager bucket_name
                 (with_log (INFO, download_message l) (with_fs fs2 w1)))
        end
  end.
Proof.
  destruct l as [ow|ow small|folder ow];
    unfold run, ensure_workspace, Setup.load_sample_files,
      Setup.load_voice_sample_files, Setup.load_selected_sample_files,
      bind, exists_, ret, logger_info, invoke, mkdir, lift_fs, returning,
      with_log, with_fs, target, exists_message, download_message,
      over_write_of, local_subdir_name, remote_archive_name;
    fold workspace_path; fold bucket_name; fold setup_message; cbn [fs ext calls logs].
  all: destruct (Os.path_exists (fs w) workspace_path) eqn:Hws; cbn [negb fs ext calls logs].
  all: try (destruct (setup_llmware_workspace config (fs w) (ext w)) as [[fs1 x1] [[]|e]];
            cbn [fs ext calls logs]; [|reflexivity]).
  all: destruct (_ && _); [reflexivity|].
  all: destruct (Os.mkdir _ _ _ _); reflexivity.
Qed.

(** *** [_download_and_unpack], step by step *)

Section Download.

Variables (folder_name : string) (sample_files_path : path) (bucket : string).

Let archive_key : string := archive_key_of folder_name.
Let archive_path : path := archive_path_of folder_name sample_files_path.

Definition pull_call : call :=
  CallPull archive_key (PurePath.str archive_path) bucket.

Definition unpack_call : call :=
  CallUnpack (PurePath.str archive_path) (PurePath.str sample_files_path) "zip".

Definition failure_message (e : exn) : string :=
  "Failed to download and extract '" ++ folder_name ++ "': " ++ exn_str e.

(** The exception of line 100: [RuntimeError(...) from e]. *)
Definition download_failed (e : exn) : exn :=
  PyExc RuntimeError (failure_message e) (Some e).

(** The handler of lines 98-100, which [except Exception] guards. *)
Definition handle (e : exn) (w : world X) : world X * outcome unit :=
  if is_Exception (exn_class e)
  then (with_log (ERROR, failure_message e) w, Raised (download_failed e))
  else (w, Raised e).

Definition world_after_pull (w : world X) (fs1 : filesystem) (x1 : X) : world X :=
  World fs1 x1 (calls w ++ [pull_call])
    (logs w ++ [(INFO, "Downloading '" ++ archive_key ++ "' from bucket '"
                        ++ bucket ++ "'...")]).

Definition world_after_unpack (w : world X) (fs2 : filesystem) (x2 : X) : world X :=
  World fs2 x2 ((calls w ++ [pull_call]) ++ [unpack_call])
    ((logs w ++ [(INFO, "Downloading '" ++ archive_key ++ "' from bucket '"
                         ++ bucket ++ "'...")])
     ++ [(INFO, "Extracting '" ++ PurePath.str archive_path ++ "' to '"
                ++ PurePath.str sample_files_path ++ "'...")]).

Definition removing_message : level * string :=
  (INFO, "Removing temporary file '" ++ PurePath.str archive_path ++ "'...").

Definition success_message : level * string :=
  (INFO, "Successfully downloaded and extracted '" ++ folder_name ++ "'.").

Lemma download_and_unpack_unfold (w : world X) :
  Setup._download_and_unpack shutil_unpack_archive
    folder_name sample_files_path bucket_manager bucket w =
  let '(fs1, x1, r1) :=
    pull_file_from_public_s3 bucket_manager archive_key
      (PurePath.str archive_path) bucket (fs w) (ext w) in
  match r1 with
  | Raised e => handle e (world_after_pull w fs1 x1)
  | Returned _ =>
      let '(fs2, x2, r2) :=
        shutil_unpack_archive (PurePath.str archive_path)
          (PurePath.str sample_files_path) "zip" fs1 x1 in
      match r2 with
      | Raised e => handle e (world_after_unpack w fs2 x2)
      | Returned _ =>
          match Os.unlink fs2 archive_path with
          | inr e => handle e (with_log removing_message (world_after_unpack w fs2 x2))
          | inl fs3 =>
              (with_log success_message
                 (with_fs fs3 (with_log removing_message (world_after_unpack w fs2 x2))),
               Returned tt)
          end
      end
  end.
Proof.
  unfold Setup._download_and_unpack, try_except, bind, logger_info, logger_error,
    invoke, unlink, lift_fs, raise, handle, world_after_pull, world_after_unpack,
    with_log, with_fs, pull_call, unpack_call, download_failed, failure_message,
    removing_message, success_message, archive_path, archive_key,
    archive_path_of, archive_key_of.
  cbn [fs ext calls logs].
  destruct (pull_file_from_public_s3 _ _ _ _ _ _) as [[fs1 x1] [[]|e1]];
    cbn [fs ext calls logs]; [|reflexivity].
  destruct (shutil_unpack_archive _ _ _ _ _) as [[fs2 x2] [[]|e2]];
    cbn [fs ext calls logs]; [|reflexivity].
  destruct (Os.unlink fs2 _) as [fs3|e3]; reflexivity.
Qed.

End Download.

(** *** What the parts of a loader do to the world *)

(** A collaborator that never removes a directory nor turns it into a
    file. *)
Definition keeps_dirs (f : collaborator X) : Prop :=
  forall fs x fs' x' r p,
    f fs x = (fs', x', r) -> Os.is_dir fs p = true -> Os.is_dir fs' p = true.

(** The storage client and the extractor write files and make directories;
    they remove no directory. *)
Definition collaborators_keep_dirs : Prop :=
  (forall k lf b, keeps_dirs (pull_file_from_public_s3 bucket_manager k lf b))
  /\ (forall a d f, keeps_dirs (shutil_unpack_archive a d f)).

(** The workspace initialiser, when it returns, has made the workspace
    root. *)
Definition setup_makes_workspace : Prop :=
  forall fs x fs' x',
    setup_llmware_workspace config fs x = (fs', x', Returned tt) ->
    Os.is_dir fs' workspace_path = true.

Definition download_and_unpack (l : loader) : M X unit :=
  Setup._download_and_unpack shutil_unpack_archive
    (remote_archive_name l) (target l) bucket_manager bucket_name.

(** The world in which a loader that does not short-circuit starts
    [_download_and_unpack]: [fs2] is what [mkdir] made of the file system. *)
Definition entry (l : loader) (w1 : world X) (fs2 : filesystem) : world X :=
  with_log (INFO, download_message l) (with_fs fs2 w1).

Lemma handle_inv folder e w w' r :
  handle folder e w = (w', r) ->
  fs w' = fs w /\ ext w' = ext w /\ calls w' = calls w /\
  r = Raised (if is_Exception (exn_class e) then download_failed folder e else e).
Proof. unfold handle. destruct (is_Exception _); intros [= <- <-]; done. Qed.

Lemma handle_not_returned folder e w : (handle folder e w).2 <> Returned tt.
Proof. unfold handle. by destruct (is_Exception _). Qed.

(** The calls of [_download_and_unpack]: the fetch, then the extraction if
    the fetch returned. *)
Definition download_calls (folder : string) (dir : path) (w : world X) : list call :=
  match pull_file_from_public_s3 bucket_manager (archive_key_of folder)
          (PurePath.str (archive_path_of folder dir)) bucket_name (fs w) (ext w) with
  | (_, _, Returned _) => [pull_call folder dir bucket_name; unpack_call folder dir]
  | (_, _, Raised _) => [pull_call folder dir bucket_name]
  end.

Ltac case_download w :=
  rewrite ?download_and_unpack_unfold in *; unfold download_calls in *;
  destruct (pull_file_from_public_s3 bucket_manager _ _ _ (fs w) (ext w))
    as [[?fs1 ?x1] [[]|?e1]] eqn:?Hpull;
  [destruct (shutil_unpack_archive _ _ _ _ _) as [[?fs2 ?x2] [[]|?e2]] eqn:?Hunpack;
   [destruct (Os.unlink _ _) as [?fs3|?e3] eqn:?Hunlink|]|].

Lemma download_calls_spec folder dir w :
  calls (Setup._download_and_unpack shutil_unpack_archive
           folder dir bucket_manager bucket_name w).1
  = (calls w ++ download_calls folder dir w)%list.
Proof.
  case_download w; unfold handle; repeat destruct (is_Exception _);
    cbn; by rewrite <- ?app_assoc.
Qed.

Lemma download_keeps_dirs folder dir w w' r p :
  collaborators_keep_dirs ->
  Setup._download_and_unpack shutil_unpack_archive
    folder dir bucket_manager bucket_name w = (w', r) ->
  Os.is_dir (fs w) p = true -> Os.is_dir (fs w') p = true.
Proof.
  intros [Hp Hu] Hrun Hd. revert Hrun. case_download w.
  all: assert (Hd1 : Os.is_dir fs1 p = true) by (eapply Hp; eauto).
  all: try assert (Hd2 : Os.is_dir fs2 p = true) by (eapply Hu; eauto).
  - intros [= <- <-]. cbn. eauto using unlink_keeps_dir.
  - by intros (-> & _)%handle_inv.
  - by intros (-> & _)%handle_inv.
  - by intros (-> & _)%handle_inv.
Qed.

(** Lines 95-96: when [_download_and_unpack] returns, the archive has been
    unlinked. *)
Lemma download_returned_unlinked folder dir w w' :
  Setup._download_and_unpack shutil_unpack_archive
    folder dir bucket_manager bucket_name w = (w', Returned tt) ->
  Os.path_exists (fs w') (archive_path_of folder dir) = false.
Proof.
  case_download w.
  - intros [= <-]. cbn. eauto using unlink_gone.
  - by intros (_ & _ & _ & ?)%handle_inv.
  - by intros (_ & _ & _ & ?)%handle_inv.
  - by intros (_ & _ & _ & ?)%handle_inv.
Qed.

Lemma ensure_workspace_existing w :
  Os.path_exists (fs w) workspace_path = true -> ensure_workspace w = (w, Returned tt).
Proof. unfold ensure_workspace. by intros ->. Qed.

Lemma ensure_workspace_calls w w1 r :
  ensure_workspace w = (w1, r) ->
  calls w1 = (calls w ++
              if Os.path_exists (fs w) workspace_path then [] else [CallSetupWorkspace])%list.
Proof.
  unfold ensure_workspace, invoke. destruct (Os.path_exists _ _).
  - intros [= <- <-]. by rewrite app_nil_r.
  - cbn. destruct (setup_llmware_workspace _ _ _) as [[fs1 x1] r1]. by intros [= <- <-].
Qed.

Lemma ensure_workspace_makes w w1 :
  setup_makes_workspace -> Os.is_file (fs w) workspace_path = false ->
  ensure_workspace w = (w1, Returned tt) -> Os.is_dir (fs w1) workspace_path = true.
Proof.
  intros Hsetup Hfile. unfold ensure_workspace, invoke.
  destruct (Os.path_exists _ _) eqn:Hex.
  - intros [= <-]. unfold Os.path_exists, Os.is_file, Os.is_dir in *.
    by destruct (Os.node_at _ _) as [[|]|].
  - cbn. destruct (setup_llmware_workspace _ _ _) as [[fs1 x1] r1] eqn:Hs.
    intros [= <- ->]. cbn. eauto.
Qed.

(** *** The two ways through a loader *)

Definition setup_calls (w : world X) : list call :=
  if Os.path_exists (fs w) workspace_path then [] else [CallSetupWorkspace].

Definition short_circuits (l : loader) (w1 : world X) : bool :=
  Os.path_exists (fs w1) (target l) && negb (over_write_of l).

Lemma new_calls_app (w w' : world X) (cs : list call) :
  calls w' = (calls w ++ cs)%list -> new_calls w w' = cs.
Proof. unfold new_calls. intros ->. by rewrite drop_app_length. Qed.

(** A run either never reaches [_download_and_unpack] (the workspace set-up
    raised, the loader short-circuited, or [mkdir] raised), or it is
    [_download_and_unpack] started in the [entry] world. *)
Lemma run_cases (l : loader) (w w' : world X) (r : outcome path) :
  run l w = (w', r) ->
  (calls w' = (calls w ++ setup_calls w)%list /\
   ((exists e, r = Raised e) \/
    (exists w1, ensure_workspace w = (w1, Returned tt) /\
                short_circuits l w1 = true /\
                w' = with_log (INFO, exists_message l) w1 /\
                r = Returned (target l))))
  \/
  (exists w1 fs2,
     ensure_workspace w = (w1, Returned tt) /\
     short_circuits l w1 = false /\
     Os.mkdir (fs w1) (target l) true true = inl fs2 /\
     returning (target l) (download_and_unpack l (entry l w1 fs2)) = (w', r) /\
     calls w' = (calls w ++ setup_calls w
                 ++ download_calls (remote_archive_name l) (target l) (entry l w1 fs2))%list).
Proof.
  rewrite run_unfold. unfold short_circuits.
  pose proof (ensure_workspace_calls w) as Hcalls. fold (setup_calls w) in Hcalls.
  destruct (ensure_workspace w) as [w1 [[]|e]].
  2:{ intros [= <- <-]. left. split; eauto. }
  specialize (Hcalls _ _ eq_refl).
  destruct (Os.path_exists (fs w1) (target l) && negb (over_write_of l)) eqn:Hsc.
  { intros [= <- <-]. left. split; [done|]. right. by exists w1. }
  destruct (Os.mkdir _ _ _ _) as [fs2|e] eqn:Hmk.
  2:{ intros [= <- <-]. left. split; [done|eauto]. }
  intros Hrun. right. exists w1, fs2. repeat split; try done.
  pose proof (download_calls_spec (remote_archive_name l) (target l) (entry l w1 fs2)) as Hd.
  fold (entry l w1 fs2) in Hrun. fold (download_and_unpack l) in Hrun, Hd.
  destruct (download_and_unpack l (entry l w1 fs2)) as [w3 [[]|e]];
    cbn in Hrun, Hd; injection Hrun as <- <-; rewrite Hd; cbn;
    by rewrite Hcalls, app_assoc.
Qed.

Lemma returning_inv {A : Type} (a : A) (m : world X * outcome unit) w' r :
  returning a m = (w', r) ->
  m.1 = w' /\ (r = Returned a /\ m.2 = Returned tt \/ exists e, r = Raised e /\ m.2 = Raised e).
Proof. destruct m as [w3 [[]|e]]; intros [= <- <-]; naive_solver. Qed.

(** The storage client was called during a run. *)
Definition pulled (w w' : world X) : bool :=
  existsb is_pull (new_calls w w').

Lemma setup_calls_no_pull w : existsb is_pull (setup_calls w) = false.
Proof. unfold setup_calls. by destruct (Os.path_exists _ _). Qed.

Lemma filter_setup_calls_pull w : List.filter is_pull (setup_calls w) = [].
Proof. unfold setup_calls. by destruct (Os.path_exists _ _). Qed.

Lemma filter_setup_calls_unpack w : List.filter is_unpack (setup_calls w) = [].
Proof. unfold setup_calls. by destruct (Os.path_exists _ _). Qed.

(** A run that called the storage client went through
    [_download_and_unpack]. *)
Lemma pulled_inv (l : loader) (w w' : world X) (r : outcome path) :
  run l w = (w', r) -> pulled w w' = true ->
  exists w1 fs2,
    ensure_workspace w = (w1, Returned tt) /\
    short_circuits l w1 = false /\
    Os.mkdir (fs w1) (target l) true true = inl fs2 /\
    returning (target l) (download_and_unpack l (entry l w1 fs2)) = (w', r).
Proof.
  intros [[Hcalls _]|(w1 & fs2 & ? & ? & ? & ? & _)]%run_cases Hp.
  - unfold pulled in Hp.
    rewrite (new_calls_app _ _ _ Hcalls), setup_calls_no_pull in Hp. done.
  - eauto 10.
Qed.

(** *** The short circuit (lines 126-128, 164-166 and 202-204) *)

Lemma run_short_circuit (l : loader) (w : world X) :
  over_write_of l = false ->
  Os.path_exists (fs w) workspace_path = true ->
  Os.path_exists (fs w) (target l) = true ->
  run l w = (with_log (INFO, exists_message l) w, Returned (target l)).
Proof.
  intros Hov Hws Hex. rewrite run_unfold, ensure_workspace_existing by done.
  by rewrite Hex, Hov.
Qed.

(** What a run leaves behind, when the collaborators keep directories: the
    workspace root, and the target whenever the loader returned or reached
    the download. *)
Lemma run_leaves (l : loader) (w w' : world X) (r : outcome path) :
  collaborators_keep_dirs -> setup_makes_workspace ->
  Os.is_file (fs w) workspace_path = false ->
  run l w = (w', r) ->
  (forall p, r = Returned p ->
     p = target l /\ Os.is_dir (fs w') workspace_path = true
     /\ Os.path_exists (fs w') (target l) = true)
  /\ (pulled w w' = true ->
      Os.is_dir (fs w') workspace_path = true /\ Os.is_dir (fs w') (target l) = true).
Proof.
  intros Hkeep Hsetup Hfile Hrun.
  assert (Hdl : forall w1 fs2,
    ensure_workspace w = (w1, Returned tt) ->
    Os.mkdir (fs w1) (target l) true true = inl fs2 ->
    returning (target l) (download_and_unpack l (entry l w1 fs2)) = (w', r) ->
    Os.is_dir (fs w') workspace_path = true /\ Os.is_dir (fs w') (target l) = true).
  { intros w1 fs2 Hws Hmk [Hw' _]%returning_inv.
    apply ensure_workspace_makes in Hws; [|done..].
    destruct (download_and_unpack l (entry l w1 fs2)) as [w3 r3] eqn:Hd.
    cbn in Hw'. subst w3. unfold download_and_unpack in Hd.
    split; eapply download_keeps_dirs; eauto; cbn;
      eauto using mkdir_keeps_dir, mkdir_makes. }
  split.
  - intros p ->. apply run_cases in Hrun as [[_ [[e [=]]|Hsc]]|Hd].
    + destruct Hsc as (w1 & Hws & Hsc & -> & [= ->]). split; [done|]. cbn.
      split; [eauto using ensure_workspace_makes|].
      unfold short_circuits in Hsc. by apply andb_prop in Hsc as [? _].
    + destruct Hd as (w1 & fs2 & Hws & _ & Hmk & Hret & _).
      destruct (Hdl _ _ Hws Hmk Hret) as [? ?].
      apply returning_inv in Hret as [_ [[[= ->] _]|(e & [=] & _)]].
      eauto using is_dir_exists.
  - intros Hp. destruct (pulled_inv _ _ _ _ Hrun Hp) as (w1 & fs2 & ? & _ & ? & ?).
    eauto.
Qed.

(** Loader calls one after the other, each from the world the previous
    one left, whatever it returned or raised. *)
Fixpoint run_all (ls : list loader) (w : world X) : world X * list (outcome path) :=
  match ls with
  | [] => (w, [])
  | l :: rest =>
      let '(w1, r) := run l w in
      let '(w2, rs) := run_all rest w1 in
      (w2, r :: rs)
  end.

Lemma run_all_short_circuit (dir : path) (ls : list loader) (w : world X) :
  Os.path_exists (fs w) workspace_path = true ->
  Os.path_exists (fs w) dir = true ->
  Forall (fun l => target l = dir /\ over_write_of l = false) ls ->
  exists w2,
    run_all ls w = (w2, List.map (fun _ => Returned dir) ls)
    /\ fs w2 = fs w /\ ext w2 = ext w /\ calls w2 = calls w.
Proof.
  intros Hws Hdir Hall. revert w Hws Hdir.
  induction Hall as [|l ls [Ht Hov] _ IH]; intros w Hws Hdir; [by exists w|].
  cbn [run_all List.map]. rewrite run_short_circuit by (rewrite ?Ht; done).
  destruct (IH (with_log (INFO, exists_message l) w)) as (w2 & -> & ? & ? & ?); [done..|].
  exists w2. by rewrite Ht.
Qed.

(** ** The claims *)

(** C1. For every loader: if the target sample directory already exists and
    overwrite is false, the call returns that directory path at once, without
    calling the storage client or the extractor (the file system, the remote
    side and the list of calls are as before); hence, of two calls of the
    same loader with overwrite false, the second returns the same path as the
    first and makes no call at all.  (When the workspace root is missing the
    workspace is set up first, and the test is made after that.) *)
Theorem short_circuit_idempotent (l : loader) (w : world X) :
  over_write_of l = false ->
  (Os.path_exists (fs w) workspace_path = true ->
   Os.path_exists (fs w) (target l) = true ->
   exists w',
     run l w = (w', Returned (target l))
     /\ fs w' = fs w /\ ext w' = ext w /\ calls w' = calls w)
  /\
  (collaborators_keep_dirs -> setup_makes_workspace ->
   Os.is_file (fs w) workspace_path = false ->
   forall w1 p,
     run l w = (w1, Returned p) ->
     exists w2,
       run l w1 = (w2, Returned p)
       /\ p = target l
       /\ fs w2 = fs w1 /\ ext w2 = ext w1 /\ calls w2 = calls w1)
  /\
  (forall w1,
     ensure_workspace w = (w1, Returned tt) ->
     Os.path_exists (fs w1) (target l) = true ->
     exists w',
       run l w = (w', Returned (target l))
       /\ fs w' = fs w1 /\ ext w' = ext w1
       /\ List.filter is_pull (new_calls w w') = []
       /\ List.filter is_unpack (new_calls w w') = []).
Proof.
  intros Hov. split; [|split].
  - intros Hws Hex. eexists. by rewrite run_short_circuit.
  - intros Hkeep Hsetup Hfile w1 p Hrun.
    destruct (run_leaves _ _ _ _ Hkeep Hsetup Hfile Hrun) as [Hret _].
    destruct (Hret p eq_refl) as (-> & Hws%is_dir_exists & Hex).
    eexists. by rewrite run_short_circuit.
  - intros w1 Hws Hex. eexists. rewrite run_unfold, Hws, Hex, Hov.
    split; [done|]. cbn [with_log fs ext]. split; [done|]. split; [done|].
    apply ensure_workspace_calls in Hws. fold (setup_calls w) in Hws.
    rewrite (new_calls_app w _ (setup_calls w)) by done.
    by rewrite filter_setup_calls_pull, filter_setup_calls_unpack.
Qed.



(** C7. Whenever a loader that went through the download returns, the
    temporary archive [<folder_name>.zip] in the target directory exists no
    more. *)
Theorem archive_removed_on_success (l : loader) (w w' : world X) (p : path) :
  run l w = (w', Returned p) ->
  pulled w w' = true ->
  Os.path_exists (fs w') (local_zip l) = false.
Proof.
  intros Hrun Hp.
  destruct (pulled_inv _ _ _ _ Hrun Hp) as (w1 & fs2 & _ & _ & _ & Hret).
  apply returning_inv in Hret as [Hw [[_ Hd]|(e & [=] & _)]].
  destruct (download_and_unpack l (entry l w1 fs2)) as [w3 r3] eqn:Hdl.
  cbn in Hw, Hd. subst. by apply download_returned_unlinked in Hdl.
Qed.

(** C9, as amended. Whenever a loader returns, the path it returns is the
    workspace root joined with the loader's subdirectory name, and that path
    exists at that time; it is a directory when the loader went through the
    download.  (The collaborators are taken to remove no directory.) *)
Theorem returned_path_exists (l : loader) (w w' : world X) (p : path) :
  collaborators_keep_dirs ->
  run l w = (w', Returned p) ->
  p = workspace_path </> local_subdir_name l
  /\ Os.path_exists (fs w') p = true
  /\ (pulled w w' = true -> Os.is_dir (fs w') p = true).
Proof.
  intros Hkeep Hrun.
  assert (Hdl : forall w1 fs2,
    Os.mkdir (fs w1) (target l) true true = inl fs2 ->
    returning (target l) (download_and_unpack l (entry l w1 fs2)) = (w', Returned p) ->
    p = target l /\ Os.is_dir (fs w') (target l) = true).
  { intros w1 fs2 Hmk [Hw' [[[= ->] _]|(e & [=] & _)]]%returning_inv.
    split; [done|].
    destruct (download_and_unpack l (entry l w1 fs2)) as [w3 r3] eqn:Hd.
    cbn in Hw'. subst w3. unfold download_and_unpack in Hd.
    eapply download_keeps_dirs; eauto; cbn; eauto using mkdir_makes. }
  fold (target l).
  pose proof Hrun as [[_ [[e [=]]|Hsc]]|Hd]%run_cases.
  - destruct Hsc as (w1 & Hws & Hsc & -> & [= ->]). split; [done|].
    unfold short_circuits in Hsc. apply andb_prop in Hsc as [Hex Hov]. split; [done|].
    intros Hp. destruct (pulled_inv _ _ _ _ Hrun Hp) as (w1' & fs2 & Hws' & Hsc' & _).
    rewrite Hws in Hws'. injection Hws' as <-.
    unfold short_circuits in Hsc'. rewrite Hex, Hov in Hsc'. done.
  - destruct Hd as (w1 & fs2 & _ & _ & Hmk & Hret & _).
    destruct (Hdl _ _ Hmk Hret) as [-> Hdir]. eauto using is_dir_exists.
Qed.

(** C5. When a loader has made its target directory and then raised in the
    download, every later call of any loader with that target directory and
    overwrite false returns the path by the short circuit and calls nothing:
    the directory being there is all that is asked, whatever it holds. *)
Theorem failed_download_short_circuits
    (l1 : loader) (w0 w1 : world X) (e : exn) (ls : list loader) :
  collaborators_keep_dirs -> setup_makes_workspace ->
  Os.is_file (fs w0) workspace_path = false ->
  run l1 w0 = (w1, Raised e) ->
  pulled w0 w1 = true ->
  Forall (fun l2 => target l2 = target l1 /\ over_write_of l2 = false) ls ->
  exists w2,
    run_all ls w1 = (w2, List.map (fun _ => Returned (target l1)) ls)
    /\ fs w2 = fs w1 /\ ext w2 = ext w1 /\ calls w2 = calls w1.
Proof.
  intros Hkeep Hsetup Hfile Hrun Hp Hall.
  destruct (run_leaves _ _ _ _ Hkeep Hsetup Hfile Hrun) as [_ Hdirs].
  destruct (Hdirs Hp) as [Hws Hdir].
  apply run_all_short_circuit; eauto using is_dir_exists.
Qed.

(** The fetch, or the extraction after a fetch that returned, raises [e] in
    the world [w], leaving the file system [fs'] and the remote side [x']. *)
Definition fetch_or_extract_raises
    (folder : string) (dir : path) (bucket : string)
    (w : world X) (e : exn) (fs' : filesystem) (x' : X) : Prop :=
  pull_file_from_public_s3 bucket_manager (archive_key_of folder)
    (PurePath.str (archive_path_of folder dir)) bucket (fs w) (ext w)
  = (fs', x', Raised e)
  \/
  exists fs1 x1,
    pull_file_from_public_s3 bucket_manager (archive_key_of folder)
      (PurePath.str (archive_path_of folder dir)) bucket (fs w) (ext w)
    = (fs1, x1, Returned tt)
    /\ shutil_unpack_archive (PurePath.str (archive_path_of folder dir))
         (PurePath.str dir) "zip" fs1 x1
       = (fs', x', Raised e).

Lemma download_failure (folder : string) (dir : path) (bucket : string)
    (w : world X) (e : exn) (fs' : filesystem) (x' : X) :
  fetch_or_extract_raises folder dir bucket w e fs' x' ->
  is_Exception (exn_class e) = true ->
  exists w',
    Setup._download_and_unpack shutil_unpack_archive folder dir bucket_manager bucket w
    = (w', Raised (download_failed folder e))
    /\ fs w' = fs' /\ ext w' = x'
    /\ (calls w' = calls w ++ [pull_call folder dir bucket]
        \/ calls w' = calls w ++ [pull_call folder dir bucket; unpack_call folder dir])%list.
Proof.
  intros [Hpull|(fs1 & x1 & Hpull & Hunpack)] Hexc;
    rewrite download_and_unpack_unfold, Hpull, ?Hunpack;
    unfold handle; rewrite Hexc; eexists; split; try done; cbn.
  - eauto.
  - rewrite <- app_assoc. eauto.
Qed.

(** What [except Exception] does not catch ([KeyboardInterrupt],
    [SystemExit], ...) goes through as it is. *)
Lemma download_interrupted (folder : string) (dir : path) (bucket : string)
    (w : world X) (e : exn) (fs' : filesystem) (x' : X) :
  fetch_or_extract_raises folder dir bucket w e fs' x' ->
  is_Exception (exn_class e) = false ->
  exists w',
    Setup._download_and_unpack shutil_unpack_archive folder dir bucket_manager bucket w
    = (w', Raised e)
    /\ fs w' = fs' /\ ext w' = x'.
Proof.
  intros [Hpull|(fs1 & x1 & Hpull & Hunpack)] Hexc;
    rewrite download_and_unpack_unfold, Hpull, ?Hunpack;
    unfold handle; rewrite Hexc; eexists; split; done.
Qed.

(** C2. For every loader: when the storage fetch, or the extraction after
    it, raises an error [e], the loader raises a [RuntimeError] (the one kind
    of failure, whatever the class of [e]), whose cause is [e] and whose
    message embeds the message of [e]; the fetch was called once and the
    extraction at most once (nothing is tried again), and the world is left
    as the failing step left it. *)
Theorem failure_is_wrapped
    (l : loader) (w w1 : world X) (fs2 : filesystem)
    (e : exn) (fs' : filesystem) (x' : X) :
  ensure_workspace w = (w1, Returned tt) ->
  short_circuits l w1 = false ->
  Os.mkdir (fs w1) (target l) true true = inl fs2 ->
  fetch_or_extract_raises (remote_archive_name l) (target l) bucket_name
    (entry l w1 fs2) e fs' x' ->
  is_Exception (exn_class e) = true ->
  exists w' e',
    run l w = (w', Raised e')
    /\ exn_class e' = RuntimeError
    /\ exn_cause e' = Some e
    /\ exn_str e'
       = "Failed to download and extract '" ++ remote_archive_name l ++ "': " ++ exn_str e
    /\ fs w' = fs' /\ ext w' = x'
    /\ length (List.filter is_pull (new_calls w w')) = 1
    /\ length (List.filter is_unpack (new_calls w w')) <= 1.
Proof.
  intros Hws Hsc Hmk Hfail Hexc.
  destruct (download_failure _ _ _ _ _ _ _ Hfail Hexc) as (w' & Hd & Hfs & Hext & Hcalls).
  exists w', (download_failed (remote_archive_name l) e).
  assert (Hrun : run l w = (w', Raised (download_failed (remote_archive_name l) e))).
  { rewrite run_unfold, Hws. fold (short_circuits l w1). rewrite Hsc, Hmk.
    fold (entry l w1 fs2). by rewrite Hd. }
  repeat split; try done.
  all: apply ensure_workspace_calls in Hws; fold (setup_calls w) in Hws.
  all: destruct Hcalls as [Hc|Hc]; cbn in Hc; rewrite Hws, <- app_assoc in Hc.
  all: rewrite (new_calls_app _ _ _ Hc), List.filter_app,
         ?filter_setup_calls_pull, ?filter_setup_calls_unpack.
  all: cbn; lia.
Qed.

(** C4. [load_voice_sample_files] with [small_only] true (its default) makes
    and returns the directory [voice_sample_files_small] under the workspace
    root and asks the bucket for [voice_small.zip]; with [small_only] false
    the directory is [voice_sample_files] and the object [voice_all.zip]. *)
Theorem voice_sample_naming (over_write small_only : option bool) (w : world X) :
  let small := default true small_only in
  let l := LoadVoiceSampleFiles over_write small_only in
  let dir :=
    (workspace_path
     ++ [if small then "voice_sample_files_small" else "voice_sample_files"])%list in
  let key := if small then "voice_small.zip" else "voice_all.zip" in
  (forall w' p, run l w = (w', Returned p) -> p = dir)
  /\
  (forall w1 fs2,
     ensure_workspace w = (w1, Returned tt) ->
     short_circuits l w1 = false ->
     Os.mkdir (fs w1) dir true true = inl fs2 ->
     Os.is_dir fs2 dir = true
     /\ run l w
        = returning dir
            (Setup._download_and_unpack shutil_unpack_archive
               (if small then "voice_small" else "voice_all") dir
               bucket_manager bucket_name (entry l w1 fs2))
     /\ exists rest,
          new_calls w1 (run l w).1
          = CallPull key (PurePath.str (dir ++ [key])) bucket_name :: rest).
Proof.
  intros small l dir key.
  assert (Hdir : target l = dir) by (subst small l dir; by destruct small_only as [[|]|]).
  assert (Hname : remote_archive_name l = if small then "voice_small" else "voice_all")
    by done.
  assert (Hzip : local_zip l = (dir ++ [key])%list).
  { unfold local_zip. rewrite Hdir, Hname. subst key. by destruct small. }
  assert (Hkey : archive_key_of (remote_archive_name l) = key)
    by (rewrite Hname; subst key; by destruct small).
  split.
  - intros w' p Hrun. rewrite <- Hdir.
    apply run_cases in Hrun as [[_ [[e [=]]|Hsc]]|Hd].
    + destruct Hsc as (_ & _ & _ & _ & ?). congruence.
    + destruct Hd as (w1 & fs2 & _ & _ & _ & Hret & _).
      apply returning_inv in Hret as [_ [[? _]|(e & ? & _)]]; congruence.
  - intros w1 fs2 Hws Hsc Hmk. split; [eauto using mkdir_makes|].
    rewrite <- Hdir in Hmk.
    assert (Hrun : run l w = returning (target l) (download_and_unpack l (entry l w1 fs2))).
    { rewrite run_unfold, Hws. fold (short_circuits l w1). by rewrite Hsc, Hmk. }
    split; [by rewrite Hrun, <- Hdir|].
    pose proof (download_calls_spec (remote_archive_name l) (target l) (entry l w1 fs2)) as Hd.
    fold (download_and_unpack l) in Hd. rewrite Hrun.
    assert (Hc : calls (returning (target l) (download_and_unpack l (entry l w1 fs2))).1
                 = calls (download_and_unpack l (entry l w1 fs2)).1)
      by (by destruct (download_and_unpack l (entry l w1 fs2)) as [w3 [[]|e]]).
    rewrite Hd in Hc. cbn [entry with_log with_fs calls] in Hc.
    rewrite (new_calls_app _ _ _ Hc). unfold download_calls, pull_call.
    fold (local_zip l). rewrite Hzip, Hkey.
    destruct (pull_file_from_public_s3 _ _ _ _ _ _) as [[? ?] [|]]; eauto.
Qed.

Lemma download_first_call (folder : string) (dir : path) (bucket : string) (w : world X) :
  exists rest,
    calls (Setup._download_and_unpack shutil_unpack_archive
             folder dir bucket_manager bucket w).1
    = (calls w ++ pull_call folder dir bucket :: rest)%list.
Proof.
  rewrite download_and_unpack_unfold.
  destruct (pull_file_from_public_s3 _ _ _ _ _ _) as [[fs1 x1] [[]|e1]];
    [destruct (shutil_unpack_archive _ _ _ _ _) as [[fs2 x2] [[]|e2]];
     [destruct (Os.unlink _ _) as [fs3|e3]|]|].
  all: unfold handle; repeat destruct (is_Exception _); cbn;
    rewrite <- ?app_assoc; eauto.
Qed.

(** C6. For every folder name, [_download_and_unpack] asks the bucket for the
    folder name followed by [.zip] (and has it written under that name in the
    target directory); [load_selected_sample_files] called without a folder
    asks for [microsoft_ir.zip]. *)
Theorem remote_key_is_folder_zip :
  (forall (folder : string) (dir : path) (bucket : string) (w : world X),
     exists rest,
       calls (Setup._download_and_unpack shutil_unpack_archive
                folder dir bucket_manager bucket w).1
       = (calls w
          ++ CallPull (folder ++ ".zip") (PurePath.str (dir </> (folder ++ ".zip"))) bucket
             :: rest)%list)
  /\
  (forall (over_write : option bool) (w w1 : world X) (fs2 : filesystem),
     ensure_workspace w = (w1, Returned tt) ->
     short_circuits (LoadSelectedSampleFiles None over_write) w1 = false ->
     Os.mkdir (fs w1) (workspace_path ++ ["microsoft_ir"]) true true = inl fs2 ->
     exists rest,
       new_calls w1
         (Setup.load_selected_sample_files config bucket_manager shutil_unpack_archive
            None over_write w).1
       = CallPull "microsoft_ir.zip"
           (PurePath.str (workspace_path ++ ["microsoft_ir"; "microsoft_ir.zip"]))
           bucket_name
         :: rest).
Proof.
  split; [apply download_first_call|].
  intros over_write w w1 fs2 Hws Hsc Hmk.
  set (l := LoadSelectedSampleFiles None over_write) in *.
  change (Setup.load_selected_sample_files _ _ _ None over_write w) with (run l w).
  change (workspace_path ++ ["microsoft_ir"])%list with (target l) in Hmk.
  rewrite run_unfold, Hws. fold (short_circuits l w1). rewrite Hsc, Hmk.
  destruct (download_first_call (remote_archive_name l) (target l) bucket_name
              (with_log (INFO, download_message l) (with_fs fs2 w1))) as [rest Hc].
  assert (Hcall : pull_call (remote_archive_name l) (target l) bucket_name
                  = CallPull "microsoft_ir.zip"
                      (PurePath.str (workspace_path ++ ["microsoft_ir"; "microsoft_ir.zip"]))
                      bucket_name).
  { unfold pull_call. f_equal. f_equal.
    change (archive_path_of (remote_archive_name l) (target l))
      with ((workspace_path ++ ["microsoft_ir"]) ++ ["microsoft_ir.zip"])%list.
    by rewrite <- app_assoc. }
  rewrite Hcall in Hc. exists rest. apply new_calls_app.
  by destruct (Setup._download_and_unpack _ _ _ _ _ _) as [w3 [[]|e]].
Qed.

(** Lines 93-100: when the extraction raises after the fetch returned,
    nothing is cleaned up; the world is left as the extractor left it. *)
Lemma extraction_failure_no_cleanup
    (folder : string) (dir : path) (bucket : string) (w : world X)
    (fs1 fs2 : filesystem) (x1 x2 : X) (e : exn) :
  pull_file_from_public_s3 bucket_manager (archive_key_of folder)
    (PurePath.str (archive_path_of folder dir)) bucket (fs w) (ext w)
  = (fs1, x1, Returned tt) ->
  shutil_unpack_archive (PurePath.str (archive_path_of folder dir))
    (PurePath.str dir) "zip" fs1 x1
  = (fs2, x2, Raised e) ->
  exists w' e',
    Setup._download_and_unpack shutil_unpack_archive folder dir bucket_manager bucket w
    = (w', Raised e')
    /\ fs w' = fs2 /\ ext w' = x2.
Proof.
  intros Hpull Hunpack. rewrite download_and_unpack_unfold, Hpull, Hunpack.
  destruct (handle folder e (world_after_unpack folder dir bucket w fs2 x2))
    as [w' r] eqn:Hh.
  apply handle_inv in Hh as (? & ? & _ & ->). eauto.
Qed.

End Loaders.

(** ** The reference collaborators are well behaved *)

Section ModelFacts.

Implicit Types (fs : gmap (list string) node) (p q : list string).

Lemma insert_file_keeps_dir fs p q b :
  Os.is_dir fs p = false -> Os.is_dir fs q = true ->
  Os.is_dir (<[p := File b]> fs) q = true.
Proof.
  intros Hp Hq. destruct (decide (p = q)) as [->|Hne]; [congruence|].
  unfold Os.is_dir. by rewrite node_at_insert_ne.
Qed.

Lemma pull_keeps_dirs (k lf b : string) : keeps_dirs (Model.pull k lf b).
Proof.
  intros fs x fs' x' r q. unfold Model.pull.
  destruct (x !! (b, k)) as [o|]; [|by intros [= <- _ _]].
  destruct (Os.node_at fs (PurePath.parse lf)) as [[|c]|] eqn:Hn;
    [by intros [= <- _ _]|..];
    (destruct (Os.node_at fs (PurePath.parent (PurePath.parse lf))) as [[|c']|];
     intros [= <- _ _]; try done;
     apply insert_file_keeps_dir; unfold Os.is_dir; by rewrite Hn).
Qed.

Lemma extract_member_keeps_dir (dest : list string) m fs fs' q :
  Model.extract_member dest m fs = inl fs' ->
  Os.is_dir fs q = true -> Os.is_dir fs' q = true.
Proof.
  unfold Model.extract_member.
  destruct (Os.mkdir fs _ true true) as [fs1|e] eqn:Hmk; [|done].
  intros Hins Hq. apply (mkdir_keeps_dir _ _ _ _ Hmk) in Hq.
  destruct (Os.node_at fs1 (dest ++ m.1)) as [[|c]|] eqn:Hn; [done|..];
    injection Hins as <-; apply insert_file_keeps_dir; try done;
    unfold Os.is_dir; by rewrite Hn.
Qed.

Lemma extract_all_keeps_dir (dest : list string) ms fs fs' r q :
  Model.extract_all dest ms fs = (fs', r) ->
  Os.is_dir fs q = true -> Os.is_dir fs' q = true.
Proof.
  revert fs. induction ms as [|m ms IH]; intros fs; cbn [Model.extract_all].
  - by intros [= <- _].
  - destruct (Model.extract_member dest m fs) as [fs1|e] eqn:Hm.
    + eauto using extract_member_keeps_dir.
    + by intros [= <- _].
Qed.

Lemma unpack_archive_keeps_dirs (a d f : string) : keeps_dirs (Model.unpack_archive a d f).
Proof.
  intros fs x fs' x' r q. unfold Model.unpack_archive.
  destruct (negb (String.eqb f "zip")); [by intros [= <- _ _]|].
  destruct (Os.node_at fs (PurePath.parse a)) as [[|[data|ms]]|];
    try by intros [= <- _ _].
  destruct (Model.extract_all _ ms fs) as [fs1 r1] eqn:He.
  intros [= <- _ _]. eauto using extract_all_keeps_dir.
Qed.

Lemma model_keeps_dirs :
  collaborators_keep_dirs Model.bucket_manager Model.unpack_archive.
Proof. split; [apply pull_keeps_dirs|apply unpack_archive_keeps_dirs]. Qed.

Lemma model_setup_makes_workspace (ws bucket : string) :
  setup_makes_workspace (Model.config ws bucket).
Proof.
  intros fs x fs' x'.
  change (Model.setup_workspace ws fs x = (fs', x', Returned tt)
          -> Os.is_dir fs' (PurePath.parse ws) = true).
  unfold Model.setup_workspace.
  destruct (Os.mkdir fs (PurePath.parse ws) true true) as [fs1|e] eqn:Hmk; [|done].
  intros [= <- _]. eauto using mkdir_makes.
Qed.

End ModelFacts.

(** ** What a loader of the reference collaborators leaves untouched *)

Section ModelFrame.

Implicit Types (fs : gmap (list string) node) (p q : list string).
Implicit Types (x : gmap (string * string) blob).

Lemma insert_file_frame fs p q b n :
  q <> p -> Os.node_at fs q = Some n -> Os.node_at (<[p := File b]> fs) q = Some n.
Proof. intros Hne Hq. by rewrite node_at_insert_ne. Qed.

(** The storage client changes the local file and nothing else, and leaves
    the bucket as it is; when it returns, the local file is the object. *)
Lemma pull_spec (k lf b : string) fs x fs' x' r :
  Model.pull k lf b fs x = (fs', x', r) ->
  x' = x
  /\ (forall q, q <> PurePath.parse lf -> Os.node_at fs' q = Os.node_at fs q)
  /\ (r = Returned tt ->
      exists o, x !! (b, k) = Some o
                /\ Os.node_at fs' (PurePath.parse lf) = Some (File o)).
Proof.
  unfold Model.pull. destruct (x !! (b, k)) as [o|]; [|by intros [= <- <- <-]].
  destruct (Os.node_at fs (PurePath.parse lf)) as [[|c]|] eqn:Hn;
    [by intros [= <- <- <-]|..];
    (destruct (Os.node_at fs (PurePath.parent (PurePath.parse lf))) as [[|c']|];
     intros [= <- <- <-]; try done;
     (split; [done|]; split; [intros q Hq; by rewrite node_at_insert_ne|]);
     intros _; exists o; split; [done|];
     apply node_at_insert_eq;
     unfold Os.node_at in Hn; by destruct (PurePath.is_anchor _)).
Qed.

Lemma extract_member_frame (dest : list string) m fs fs' q c :
  Model.extract_member dest m fs = inl fs' ->
  Os.node_at fs q = Some (File c) -> q <> (dest ++ m.1)%list ->
  Os.node_at fs' q = Some (File c).
Proof.
  unfold Model.extract_member.
  destruct (Os.mkdir fs _ true true) as [fs1|e] eqn:Hmk; [|done].
  intros Hins Hq Hne. apply (mkdir_keeps _ _ _ _ _ Hmk) in Hq.
  destruct (Os.node_at fs1 (dest ++ m.1)) as [[|c']|]; [done|..];
    injection Hins as <-; by apply insert_file_frame.
Qed.

Lemma extract_all_frame (dest : list string) ms fs fs' r q c :
  Model.extract_all dest ms fs = (fs', r) ->
  Os.node_at fs q = Some (File c) ->
  q ∉ List.map (fun m => (dest ++ m.1)%list) ms ->
  Os.node_at fs' q = Some (File c).
Proof.
  revert fs. induction ms as [|m ms IH]; intros fs; cbn [Model.extract_all List.map].
  - by intros [= <- _].
  - intros Hex Hq [Hm Hms]%not_elem_of_cons.
    destruct (Model.extract_member dest m fs) as [fs1|e] eqn:Hmem.
    + eauto using extract_member_frame.
    + by injection Hex as <- _.
Qed.

(** The extractor writes the members of the archive under the directory and
    no other file. *)
Lemma unpack_archive_spec (a d f : string) fs x fs' x' r ms q c :
  Model.unpack_archive a d f fs x = (fs', x', r) ->
  Os.node_at fs (PurePath.parse a) = Some (File (ZipArchive ms)) ->
  Os.node_at fs q = Some (File c) ->
  q ∉ List.map (fun m => (PurePath.parse d ++ m.1)%list) ms ->
  Os.node_at fs' q = Some (File c).
Proof.
  unfold Model.unpack_archive. intros Hrun Ha Hq Hnot.
  destruct (negb (String.eqb f "zip")); [by injection Hrun as <- _ _|].
  rewrite Ha in Hrun.
  destruct (Model.extract_all _ ms fs) as [fs1 r1] eqn:He.
  injection Hrun as <- _ _. eauto using extract_all_frame.
Qed.

(** An archive that is not a zip archive is not extracted. *)
Lemma unpack_archive_returned (a d f : string) fs x fs' x' o :
  Model.unpack_archive a d f fs x = (fs', x', Returned tt) ->
  Os.node_at fs (PurePath.parse a) = Some (File o) ->
  exists ms, o = ZipArchive ms.
Proof.
  unfold Model.unpack_archive. intros Hrun Ha.
  destruct (negb (String.eqb f "zip")); [done|].
  rewrite Ha in Hrun. destruct o as [data|ms]; [done|eauto].
Qed.

Variables (ws bucket : string).

Local Abbreviation cfg := (Model.config ws bucket).

Lemma target_normal (l : loader) : PathFacts.normal (target cfg l) = true.
Proof. apply PathFacts.joinpath_normal, PathFacts.parse_normal. Qed.

Lemma local_zip_normal (l : loader) : PathFacts.normal (local_zip cfg l) = true.
Proof. apply PathFacts.joinpath_normal, target_normal. Qed.

Lemma ensure_workspace_frame (w w1 : world (gmap (string * string) blob)) r q n :
  ensure_workspace cfg w = (w1, r) ->
  ext w1 = ext w
  /\ (Os.node_at (fs w) q = Some n -> Os.node_at (fs w1) q = Some n).
Proof.
  unfold ensure_workspace, invoke. destruct (Os.path_exists _ _); [by intros [= <- _]|].
  change (setup_llmware_workspace cfg) with (Model.setup_workspace ws).
  unfold Model.setup_workspace. cbn [fs ext with_log].
  destruct (Os.mkdir (fs w) (PurePath.parse ws) true true) as [fs1|e] eqn:Hmk;
    intros [= <- _]; cbn; eauto using mkdir_keeps.
Qed.

(** C10, as amended. A call of a loader with overwrite true, run against the
    reference collaborators, removes and changes no file that was there
    before, apart from the members of the archive it downloads and from the
    path of the temporary archive [<folder_name>.zip] in the target
    directory: every other file is there, with its content, when the call
    returns. *)
Theorem over_write_keeps_other_files
    (l : loader) (w w' : world (gmap (string * string) blob)) (p : list string)
    (ms : list (list string * string)) (q : list string) (c : blob) :
  over_write_of l = true ->
  run cfg Model.bucket_manager Model.unpack_archive l w = (w', Returned p) ->
  ext w !! (bucket, remote_zip l) = Some (ZipArchive ms) ->
  Os.node_at (fs w) q = Some (File c) ->
  q <> local_zip cfg l ->
  q ∉ List.map (fun m => (target cfg l ++ m.1)%list) ms ->
  Os.node_at (fs w') q = Some (File c).
Proof.
  intros _ Hrun Hobj Hq Hzip Hentry.
  apply run_cases in Hrun as [[_ [[e [=]]|Hsc]]|Hd].
  { destruct Hsc as (w1 & Hws & _ & -> & _).
    by apply (ensure_workspace_frame _ _ _ q (File c)) in Hws as [_ ?]; auto. }
  destruct Hd as (w1 & fs2 & Hws & _ & Hmk & Hret & _).
  apply (ensure_workspace_frame _ _ _ q (File c)) in Hws as [Hext Hkeep].
  specialize (Hkeep Hq). apply (mkdir_keeps _ _ _ _ _ Hmk) in Hkeep.
  apply returning_inv in Hret as [Hw' [[_ Hres]|(e & [=] & _)]].
  unfold download_and_unpack in Hw', Hres.
  rewrite download_and_unpack_unfold in Hw', Hres.
  change (pull_file_from_public_s3 Model.bucket_manager) with Model.pull in Hw', Hres.
  change (bucket_name cfg) with bucket in Hw', Hres.
  fold (local_zip cfg l) (remote_zip l) in Hw', Hres.
  cbn [entry with_log with_fs fs ext] in Hw', Hres.
  destruct (Model.pull _ _ _ fs2 (ext w1)) as [[fs3 x3] r3] eqn:Hpull.
  apply pull_spec in Hpull as (-> & Hframe & Hfile).
  rewrite (PathFacts.parse_str _ (local_zip_normal l)) in Hframe, Hfile.
  destruct r3 as [[]|e]; [|by apply handle_not_returned in Hres].
  destruct (Hfile eq_refl) as (o & Ho & Harchive). rewrite Hext, Hobj in Ho.
  injection Ho as <-.
  destruct (Model.unpack_archive _ _ _ fs3 (ext w1)) as [[fs4 x4] r4] eqn:Hunpack.
  eapply (unpack_archive_spec _ _ _ _ _ _ _ _ ms q c) in Hunpack.
  2:{ by rewrite (PathFacts.parse_str _ (local_zip_normal l)). }
  2:{ by rewrite Hframe. }
  2:{ by rewrite (PathFacts.parse_str _ (target_normal l)). }
  destruct r4 as [[]|e]; [|by apply handle_not_returned in Hres].
  destruct (Os.unlink fs4 (local_zip cfg l)) as [fs5|e] eqn:Hunlink;
    [|by apply handle_not_returned in Hres].
  cbn in Hw'. subst w'. cbn.
  by rewrite (unlink_frame _ _ _ _ Hunlink Hzip).
Qed.

End ModelFrame.

(** ** Concrete runs *)

(** Naming the parts of a computed result, so that a run is evaluated once
    and compared on its outcome alone. *)
Lemma pair_eta {A B : Type} (x : A * B) (b : B) : x.2 = b -> x = (x.1, b).
Proof. destruct x. by intros <-. Qed.

Lemma triple_eta {A B C : Type} (x : A * B * C) (c : C) :
  x.2 = c -> x = (x.1.1, x.1.2, c).
Proof. destruct x as [[? ?] ?]. by intros <-. Qed.

Definition is_inl {A B : Type} (s : A + B) : bool :=
  match s with inl _ => true | inr _ => false end.

Definition the_inl {A B : Type} (d : A) (s : A + B) : A :=
  match s with inl a => a | inr _ => d end.

Lemma inl_eta {A B : Type} (d : A) (s : A + B) : is_inl s = true -> s = inl (the_inl d s).
Proof. by destruct s. Qed.

Module Scenario.

(** The workspace root is [/tmp/ws] and the bucket [llmware]. *)
Definition cfg : LLMWareConfig (gmap (string * string) blob) :=
  Model.config "/tmp/ws" "llmware".

Definition run_model (l : loader) :
    M (gmap (string * string) blob) (list string) :=
  run cfg Model.bucket_manager Model.unpack_archive l.

Definition good_zip : blob :=
  ZipArchive [(["a.pdf"], "A"); (["Agreements"; "b.pdf"], "B")].

(** An archive whose second member cannot be written (its directory is the
    file the first member made): extracting it stops half way. *)
Definition clash_zip : blob :=
  ZipArchive [(["a.pdf"], "A"); (["a.pdf"; "x"], "B"); (["c.pdf"], "C")].

Definition objects : gmap (string * string) blob :=
  {[ ("llmware", "sample_files.zip") := good_zip;
     ("llmware", "voice_small.zip") := good_zip;
     ("llmware", "voice_all.zip") := good_zip;
     ("llmware", "microsoft_ir.zip") := good_zip ]}.

Definition bad_objects : gmap (string * string) blob :=
  {[ ("llmware", "sample_files.zip") := clash_zip;
     ("llmware", "voice_small.zip") := Raw "truncated" ]}.

(** Nothing on the disk yet, not even the workspace. *)
Definition fresh : world (gmap (string * string) blob) := World ∅ objects [] [].
Definition fresh_bad : world (gmap (string * string) blob) := World ∅ bad_objects [] [].

(** After a first [load_sample_files()]. *)
Definition populated : world (gmap (string * string) blob) :=
  (run_model (LoadSampleFiles None) fresh).1.

Definition sample_dir : list string := ["/"; "tmp"; "ws"; "sample_files"].
Definition sample_zip : list string :=
  ["/"; "tmp"; "ws"; "sample_files"; "sample_files.zip"].

(** A regular file where the sample directory would be. *)
Definition file_world : world (gmap (string * string) blob) :=
  World {[ ["/"; "tmp"] := Dir;
           ["/"; "tmp"; "ws"] := Dir;
           sample_dir := File (Raw "notes") ]}
        objects [] [].

(** The example of the specification: from nothing, the workspace is set
    up, the directory made, the archive fetched into it, extracted and
    removed, and the directory returned. *)
Example load_sample_files_from_nothing :
  (run_model (LoadSampleFiles None) fresh).2 = Returned sample_dir
  /\ calls populated
     = [CallSetupWorkspace;
        CallPull "sample_files.zip" "/tmp/ws/sample_files/sample_files.zip" "llmware";
        CallUnpack "/tmp/ws/sample_files/sample_files.zip" "/tmp/ws/sample_files" "zip"]
  /\ fs populated
     = list_to_map
         [(["/"; "tmp"], Dir);
          (["/"; "tmp"; "ws"], Dir);
          (sample_dir, Dir);
          (["/"; "tmp"; "ws"; "sample_files"; "a.pdf"], File (Raw "A"));
          (["/"; "tmp"; "ws"; "sample_files"; "Agreements"], Dir);
          (["/"; "tmp"; "ws"; "sample_files"; "Agreements"; "b.pdf"], File (Raw "B"))].
Proof. repeat split; by vm_compute. Qed.

Lemma run_fresh :
  run_model (LoadSampleFiles None) fresh = (populated, Returned sample_dir).
Proof. unfold populated. apply pair_eta. by vm_compute. Qed.

(** C1 on the disk that starts empty: the first [load_sample_files()]
    downloads, the second returns the same directory and calls nothing. *)
Lemma short_circuit_idempotent_witness :
  over_write_of (LoadSampleFiles None) = false
  /\ run_model (LoadSampleFiles None) fresh = (populated, Returned sample_dir)
  /\ exists w2,
       run_model (LoadSampleFiles None) populated = (w2, Returned sample_dir)
       /\ sample_dir = target cfg (LoadSampleFiles None)
       /\ fs w2 = fs populated /\ ext w2 = ext populated
       /\ calls w2 = calls populated.
Proof.
  split; [reflexivity|]. split; [exact run_fresh|].
  destruct (short_circuit_idempotent cfg Model.bucket_manager Model.unpack_archive
              (LoadSampleFiles None) fresh eq_refl) as [_ [Htwice _]].
  apply Htwice.
  - exact model_keeps_dirs.
  - exact (model_setup_makes_workspace _ _).
  - vm_compute; reflexivity.
  - exact run_fresh.
Defined.

(** C2 where the bucket has no such object: the client's error comes back
    wrapped. *)
Lemma failure_is_wrapped_witness :
  exists w' e',
    run_model (LoadSelectedSampleFiles (Some "missing") None) fresh = (w', Raised e')
    /\ exn_class e' = RuntimeError
    /\ exn_cause e' = Some Model.client_error
    /\ exn_str e'
       = "Failed to download and extract 'missing': " ++ exn_str Model.client_error
    /\ length (List.filter is_pull (new_calls fresh w')) = 1
    /\ length (List.filter is_unpack (new_calls fresh w')) <= 1.
Proof.
  unfold run_model.
  pose (l := LoadSelectedSampleFiles (Some "missing") None).
  pose (w1 := (ensure_workspace cfg fresh).1).
  pose (fs2 := the_inl ∅ (Os.mkdir (fs w1) (target cfg l) true true)).
  pose (res := Model.pull (archive_key_of (remote_archive_name l))
                 (PurePath.str (archive_path_of (remote_archive_name l) (target cfg l)))
                 (bucket_name cfg) (fs (entry l w1 fs2)) (ext (entry l w1 fs2))).
  destruct (failure_is_wrapped cfg Model.bucket_manager Model.unpack_archive
            l fresh w1 fs2 Model.client_error res.1.1 res.1.2)
    as (w' & e' & Hrun & Hcls & Hcause & Hstr & _ & _ & Hpull & Hunpack).
  - (apply pair_eta; by vm_compute).
  - (by vm_compute).
  - (apply (inl_eta ∅); by vm_compute).
  - left. (apply triple_eta; by vm_compute).
  - reflexivity.
  - (exists w', e'; done).
Defined.



(** C7 on the disk that starts empty. *)
Lemma archive_removed_on_success_witness :
  run_model (LoadSampleFiles None) fresh = (populated, Returned sample_dir)
  /\ pulled fresh populated = true
  /\ Os.path_exists (fs populated) sample_zip = false.
Proof.
  split; [exact run_fresh|]. split; [by vm_compute|].
  exact (archive_removed_on_success cfg Model.bucket_manager Model.unpack_archive
           (LoadSampleFiles None) fresh populated sample_dir run_fresh
           ltac:(by vm_compute)).
Defined.

(** C9, as amended, on the disk that starts empty. *)
Lemma returned_path_exists_witness :
  run_model (LoadSampleFiles None) fresh = (populated, Returned sample_dir)
  /\ sample_dir = workspace_path cfg </> local_subdir_name (LoadSampleFiles None)
  /\ Os.path_exists (fs populated) sample_dir = true
  /\ Os.is_dir (fs populated) sample_dir = true.
Proof.
  split; [exact run_fresh|].
  destruct (returned_path_exists cfg Model.bucket_manager Model.unpack_archive
              (LoadSampleFiles None) fresh populated sample_dir
              model_keeps_dirs run_fresh) as (Hp & Hex & Hdir).
  split; [exact Hp|]. split; [exact Hex|]. apply Hdir. by vm_compute.
Defined.

(** C9 as it was stated fails: with a regular file where the sample
    directory would be, [load_sample_files()] returns that path, and it is not
    a directory. *)
Lemma returned_path_can_be_a_file :
  Os.path_exists (fs file_world) (workspace_path cfg) = true
  /\ (run_model (LoadSampleFiles None) file_world).2 = Returned sample_dir
  /\ Os.is_dir (fs (run_model (LoadSampleFiles None) file_world).1) sample_dir = false
  /\ Os.is_file (fs (run_model (LoadSampleFiles None) file_world).1) sample_dir = true.
Proof. repeat split; by vm_compute. Qed.

Definition half_extracted : world (gmap (string * string) blob) :=
  (run_model (LoadSampleFiles None) fresh_bad).1.

Definition extraction_error : exn :=
  PyExc RuntimeError
    "Failed to download and extract 'sample_files': [Errno 17] File exists: '/tmp/ws/sample_files/a.pdf'"
    (Some (PyExc FileExistsError "[Errno 17] File exists: '/tmp/ws/sample_files/a.pdf'" None)).

Lemma run_fresh_bad :
  run_model (LoadSampleFiles None) fresh_bad = (half_extracted, Raised extraction_error).
Proof. unfold half_extracted. apply pair_eta. by vm_compute. Qed.

(** C5 where the extraction stops half way: one member is there, the archive
    is still there, another member is missing; all the same, the calls that
    follow on that directory return it and fetch nothing. *)
Lemma failed_download_short_circuits_witness :
  run_model (LoadSampleFiles None) fresh_bad = (half_extracted, Raised extraction_error)
  /\ Os.is_file (fs half_extracted) (sample_dir ++ ["a.pdf"])%list = true
  /\ Os.is_file (fs half_extracted) sample_zip = true
  /\ Os.path_exists (fs half_extracted) (sample_dir ++ ["c.pdf"])%list = false
  /\ exists w2,
       run_all cfg Model.bucket_manager Model.unpack_archive
         [LoadSampleFiles None;
          LoadSelectedSampleFiles (Some "sample_files") None;
          LoadSampleFiles (Some false)] half_extracted
       = (w2, [Returned sample_dir; Returned sample_dir; Returned sample_dir])
       /\ fs w2 = fs half_extracted /\ ext w2 = ext half_extracted
       /\ calls w2 = calls half_extracted.
Proof.
  split; [exact run_fresh_bad|]. repeat (split; [by vm_compute|]).
  apply (failed_download_short_circuits cfg Model.bucket_manager Model.unpack_archive
           (LoadSampleFiles None) fresh_bad half_extracted extraction_error
           [LoadSampleFiles None;
            LoadSelectedSampleFiles (Some "sample_files") None;
            LoadSampleFiles (Some false)]).
  - exact model_keeps_dirs.
  - exact (model_setup_makes_workspace _ _).
  - by vm_compute.
  - exact run_fresh_bad.
  - by vm_compute.
  - repeat constructor.
Defined.

(** C4 on the disk that starts empty, with the default [small_only]. *)
Lemma voice_sample_naming_witness :
  exists rest,
    new_calls (ensure_workspace cfg fresh).1
      (run_model (LoadVoiceSampleFiles None None) fresh).1
    = CallPull "voice_small.zip" "/tmp/ws/voice_sample_files_small/voice_small.zip" "llmware"
      :: rest.
Proof.
  unfold run_model.
  pose (w1 := (ensure_workspace cfg fresh).1).
  pose (dir := (workspace_path cfg ++ ["voice_sample_files_small"])%list).
  destruct (voice_sample_naming cfg Model.bucket_manager Model.unpack_archive
              None None fresh) as [_ Hdl].
  destruct (Hdl w1 (the_inl ∅ (Os.mkdir (fs w1) dir true true)))
    as (_ & _ & rest & Hcalls).
  - apply pair_eta; by vm_compute.
  - by vm_compute.
  - apply (inl_eta ∅); by vm_compute.
  - exists rest. exact Hcalls.
Defined.

(** C6 on the disk that starts empty, with the default folder. *)
Lemma remote_key_is_folder_zip_witness :
  exists rest,
    new_calls (ensure_workspace cfg fresh).1
      (run_model (LoadSelectedSampleFiles None None) fresh).1
    = CallPull "microsoft_ir.zip" "/tmp/ws/microsoft_ir/microsoft_ir.zip" "llmware"
      :: rest.
Proof.
  unfold run_model.
  pose (w1 := (ensure_workspace cfg fresh).1).
  pose (dir := (workspace_path cfg ++ ["microsoft_ir"])%list).
  destruct (remote_key_is_folder_zip cfg Model.bucket_manager Model.unpack_archive)
    as [_ Hdl].
  destruct (Hdl None fresh w1 (the_inl ∅ (Os.mkdir (fs w1) dir true true)))
    as (rest & Hcalls).
  - apply pair_eta; by vm_compute.
  - by vm_compute.
  - apply (inl_eta ∅); by vm_compute.
  - exists rest. exact Hcalls.
Defined.

(** The sample directory as a failed extraction can leave it: the archive of
    that time still in it, next to a file of the user. *)
Definition notes : list string := ["/"; "tmp"; "ws"; "sample_files"; "notes.txt"].

Definition stale_world : world (gmap (string * string) blob) :=
  World {[ ["/"; "tmp"] := Dir;
           ["/"; "tmp"; "ws"] := Dir;
           sample_dir := Dir;
           sample_zip := File (Raw "stale");
           notes := File (Raw "mine") ]}
        objects [] [].

Definition refreshed : world (gmap (string * string) blob) :=
  (run_model (LoadSampleFiles (Some true)) stale_world).1.

Lemma run_stale :
  run_model (LoadSampleFiles (Some true)) stale_world = (refreshed, Returned sample_dir).
Proof. unfold refreshed. apply pair_eta. by vm_compute. Qed.

(** C10 as it was stated fails: [sample_files.zip] was in the directory
    before the call and is no member of the archive that is downloaded, and
    after [load_sample_files(over_write=True)] it is gone. *)
Lemma over_write_removes_stale_archive :
  over_write_of (LoadSampleFiles (Some true)) = true
  /\ Os.is_dir (fs stale_world) sample_dir = true
  /\ Os.node_at (fs stale_world) sample_zip = Some (File (Raw "stale"))
  /\ objects !! ("llmware", "sample_files.zip")
     = Some (ZipArchive [(["a.pdf"], "A"); (["Agreements"; "b.pdf"], "B")])
  /\ sample_zip <> (sample_dir ++ ["a.pdf"])%list
  /\ sample_zip <> (sample_dir ++ ["Agreements"; "b.pdf"])%list
  /\ (run_model (LoadSampleFiles (Some true)) stale_world).2 = Returned sample_dir
  /\ Os.node_at (fs (run_model (LoadSampleFiles (Some true)) stale_world).1) sample_zip
     = None.
Proof. repeat split; by vm_compute. Qed.

(** C10, as amended, on that directory: the file of the user is kept. *)
Lemma over_write_keeps_other_files_witness :
  over_write_of (LoadSampleFiles (Some true)) = true
  /\ run_model (LoadSampleFiles (Some true)) stale_world = (refreshed, Returned sample_dir)
  /\ Os.node_at (fs stale_world) notes = Some (File (Raw "mine"))
  /\ Os.node_at (fs refreshed) notes = Some (File (Raw "mine")).
Proof.
  split; [reflexivity|]. split; [exact run_stale|]. split; [by vm_compute|].
  apply (over_write_keeps_other_files "/tmp/ws" "llmware" (LoadSampleFiles (Some true))
           stale_world refreshed sample_dir
           [(["a.pdf"], "A"); (["Agreements"; "b.pdf"], "B")] notes (Raw "mine")).
  - reflexivity.
  - exact run_stale.
  - by vm_compute.
  - by vm_compute.
  - by vm_compute.
  - apply not_elem_of_cons; split; [by vm_compute|].
    apply not_elem_of_cons; split; [by vm_compute|]. apply not_elem_of_nil.
Defined.

Definition voice_zip : list string :=
  ["/"; "tmp"; "ws"; "voice_sample_files_small"; "voice_small.zip"].


End Scenario.

(** C8. When the extraction raises after the fetch returned,
    [_download_and_unpack] raises with the file system as the extractor left
    it: nothing is cleaned up, [unlink] comes only after an extraction that
    returned.  And there is such a run in which the temporary archive stays in
    the target directory: [load_voice_sample_files()] when the object
    [voice_small.zip] of the bucket is not a zip archive. *)
Theorem archive_left_on_extraction_failure :
  (forall (X : Type) (bucket_manager : CloudBucketManager X)
          (shutil_unpack_archive : string -> string -> string -> collaborator X)
          (folder : string) (dir : list string) (bucket : string) (w : world X)
          (fs1 fs2 : gmap (list string) node) (x1 x2 : X) (e : exn),
     pull_file_from_public_s3 bucket_manager (archive_key_of folder)
       (PurePath.str (archive_path_of folder dir)) bucket (fs w) (ext w)
     = (fs1, x1, Returned tt) ->
     shutil_unpack_archive (PurePath.str (archive_path_of folder dir))
       (PurePath.str dir) "zip" fs1 x1
     = (fs2, x2, Raised e) ->
     exists w' e',
       Setup._download_and_unpack shutil_unpack_archive folder dir bucket_manager bucket w
       = (w', Raised e')
       /\ fs w' = fs2 /\ ext w' = x2)
  /\
  (exists (l : loader) (w w' : world (gmap (string * string) blob)) (e : exn),
     Scenario.run_model l w = (w', Raised e)
     /\ exn_class e = RuntimeError
     /\ new_calls w w'
        = [CallSetupWorkspace;
           CallPull "voice_small.zip" (PurePath.str (local_zip Scenario.cfg l)) "llmware";
           CallUnpack (PurePath.str (local_zip Scenario.cfg l)) (PurePath.str (target Scenario.cfg l)) "zip"]
     /\ local_zip Scenario.cfg l = Scenario.voice_zip
     /\ Os.node_at (fs w') (local_zip Scenario.cfg l) = Some (File (Raw "truncated"))).
Proof.
  split; [intros; eapply extraction_failure_no_cleanup; eauto|].
  exists (LoadVoiceSampleFiles None None), Scenario.fresh_bad,
    (Scenario.run_model (LoadVoiceSampleFiles None None) Scenario.fresh_bad).1,
    (PyExc RuntimeError
       ("Failed to download and extract 'voice_small': "
        ++ exn_str (Model.read_error "/tmp/ws/voice_sample_files_small/voice_small.zip"))
       (Some (Model.read_error "/tmp/ws/voice_sample_files_small/voice_small.zip"))).
  split; [apply pair_eta; by vm_compute|]. repeat split; by vm_compute.
Qed.

(** ** More on the loaders: what they call, how they fail, what they leave *)

Section LoaderBehaviour.

Context {X : Type}.
Variable config : LLMWareConfig X.
Variable bucket_manager : CloudBucketManager X.
Variable shutil_unpack_archive :
  forall (filename extract_dir format : string), collaborator X.

Local Abbreviation load := (run config bucket_manager shutil_unpack_archive).
Local Abbreviation download folder dir bucket :=
  (Setup._download_and_unpack shutil_unpack_archive folder dir bucket_manager bucket).
Local Abbreviation pull := (pull_file_from_public_s3 bucket_manager).

(** X1. The calls of a loader, in order: the workspace set-up when (and only
    when) the workspace root is missing; then nothing, or the fetch of
    [<folder_name>.zip] of the configured bucket into the target directory,
    or that fetch followed by the extraction of that file into the target
    directory.  So there is at most one call of each collaborator, and no
    extraction without a fetch before it. *)
Theorem call_protocol (l : loader) (w : world X) :
  exists cs,
    new_calls w (load l w).1
    = ((if Os.path_exists (fs w) (workspace_path config) then []
        else [CallSetupWorkspace]) ++ cs)%list
    /\ (cs = []
        \/ cs = [pull_call (remote_archive_name l) (target config l) (bucket_name config)]
        \/ cs = [pull_call (remote_archive_name l) (target config l) (bucket_name config);
                 unpack_call (remote_archive_name l) (target config l)]).
Proof.
  destruct (load l w) as [w' r] eqn:Hrun.
  apply run_cases in Hrun as [[Hcalls _]|(w1 & fs2 & _ & _ & _ & _ & Hcalls)].
  - exists []. split; [|by left]. apply new_calls_app. by rewrite app_nil_r.
  - eexists. split; [by apply new_calls_app|].
    unfold download_calls.
    destruct (pull_file_from_public_s3 _ _ _ _ _ _) as [[? ?] [|]]; auto.
Qed.

(** X2. [mkdir] is outside the [try]: when it raises, the loader raises that
    very exception (no [RuntimeError] around it), the world is as the
    workspace step left it, and the storage client is not called. *)
Theorem mkdir_failure_is_not_wrapped
    (l : loader) (w w1 : world X) (e : exn) :
  ensure_workspace config w = (w1, Returned tt) ->
  short_circuits config l w1 = false ->
  Os.mkdir (fs w1) (target config l) true true = inr e ->
  load l w = (w1, Raised e)
  /\ List.filter is_pull (new_calls w w1) = [].
Proof.
  intros Hws Hsc Hmk. split.
  - rewrite run_unfold, Hws. fold (short_circuits config l w1). by rewrite Hsc, Hmk.
  - apply ensure_workspace_calls in Hws. fold (setup_calls config w) in Hws.
    by rewrite (new_calls_app _ _ _ Hws), filter_setup_calls_pull.
Qed.

Lemma mkdir_on_file (fs : gmap (list string) node) (p : list string) :
  Os.is_file fs p = true ->
  Os.mkdir fs p true true = inr (Os.os_error FileExistsError "[Errno 17] File exists" p).
Proof.
  intros Hf. unfold Os.mkdir. rewrite mkdir_parents_rev_eq, rev_involutive.
  unfold Os.os_mkdir, Os.is_dir, Os.is_file in *.
  by destruct (Os.node_at fs p) as [[|c]|].
Qed.

(** X3. With overwrite true and a regular file where the target directory
    would be, the loader raises [FileExistsError] (from [mkdir], which
    [exist_ok] does not excuse for a file), calls nothing and changes
    nothing but the log. *)
Theorem over_write_on_regular_file (l : loader) (w : world X) :
  over_write_of l = true ->
  Os.path_exists (fs w) (workspace_path config) = true ->
  Os.is_file (fs w) (target config l) = true ->
  exists e,
    load l w = (w, Raised e)
    /\ exn_class e = FileExistsError /\ exn_cause e = None.
Proof.
  intros Hov Hws Hfile.
  exists (Os.os_error FileExistsError "[Errno 17] File exists" (target config l)).
  split; [|done].
  rewrite run_unfold, ensure_workspace_existing, Hov, andb_false_r by done.
  by rewrite mkdir_on_file.
Qed.

(** X4. When the workspace root is missing and the workspace set-up raises,
    the loader raises that very exception at once: no directory is made and
    the storage client is not called. *)
Theorem setup_failure_is_not_wrapped
    (l : loader) (w : world X) (fs' : gmap (list string) node) (x' : X) (e : exn) :
  Os.path_exists (fs w) (workspace_path config) = false ->
  setup_llmware_workspace config (fs w) (ext w) = (fs', x', Raised e) ->
  exists w',
    load l w = (w', Raised e)
    /\ fs w' = fs' /\ ext w' = x'
    /\ new_calls w w' = [CallSetupWorkspace].
Proof.
  intros Hws Hsetup. eexists. rewrite run_unfold.
  unfold ensure_workspace, invoke. rewrite Hws. cbn [with_log fs ext calls logs].
  rewrite Hsetup. split; [done|]. cbn. repeat split. by apply new_calls_app.
Qed.

Lemma unlink_iff (fs : gmap (list string) node) (p : list string) :
  (exists fs', Os.unlink fs p = inl fs') <-> Os.is_file fs p = true.
Proof.
  unfold Os.unlink, Os.is_file.
  destruct (Os.node_at fs p) as [[|c]|]; split; intros H; try done;
    try (by destruct H); eauto.
Qed.

(** X5. [_download_and_unpack] returns exactly when the fetch returns, the
    extraction after it returns, and the archive is then a file in the
    target directory (else it raises); and then it leaves the file system of
    the extractor without that file, and has called the fetch and the
    extraction once each. *)
Theorem download_returns_iff
    (folder : string) (dir : list string) (bucket : string) (w : world X) :
  ((download folder dir bucket w).2 = Returned tt
   <->
   exists fs1 x1 fs2 x2,
     pull (archive_key_of folder) (PurePath.str (archive_path_of folder dir)) bucket
       (fs w) (ext w) = (fs1, x1, Returned tt)
     /\ shutil_unpack_archive (PurePath.str (archive_path_of folder dir))
          (PurePath.str dir) "zip" fs1 x1 = (fs2, x2, Returned tt)
     /\ Os.is_file fs2 (archive_path_of folder dir) = true)
  /\
  (forall fs1 x1 fs2 x2,
     pull (archive_key_of folder) (PurePath.str (archive_path_of folder dir)) bucket
       (fs w) (ext w) = (fs1, x1, Returned tt) ->
     shutil_unpack_archive (PurePath.str (archive_path_of folder dir))
       (PurePath.str dir) "zip" fs1 x1 = (fs2, x2, Returned tt) ->
     Os.is_file fs2 (archive_path_of folder dir) = true ->
     let w' := (download folder dir bucket w).1 in
     fs w' = delete (archive_path_of folder dir) fs2
     /\ ext w' = x2
     /\ calls w' = (calls w ++ [pull_call folder dir bucket; unpack_call folder dir])%list).
Proof.
  rewrite download_and_unpack_unfold. split.
  - destruct (pull_file_from_public_s3 _ _ _ _ _ _) as [[fs1 x1] [[]|e1]] eqn:Hpull.
    2:{ split; [by intros ?%handle_not_returned|]. by intros (? & ? & ? & ? & [=] & _). }
    destruct (shutil_unpack_archive _ _ _ fs1 x1) as [[fs2 x2] [[]|e2]] eqn:Hunpack.
    2:{ split; [by intros ?%handle_not_returned|].
        intros (? & ? & ? & ? & [= <- <-] & Hu & _). rewrite Hunpack in Hu. done. }
    destruct (Os.unlink fs2 _) as [fs3|e3] eqn:Hunlink.
    + split; [|done]. intros _. exists fs1, x1, fs2, x2.
      split; [done|]. split; [done|]. apply unlink_iff. eauto.
    + split; [by intros ?%handle_not_returned|].
      intros (? & ? & ? & ? & [= <- <-] & Hu & Hf). rewrite Hunpack in Hu.
      injection Hu as <- <-. apply unlink_iff in Hf as [fs3 Hf]. congruence.
  - intros fs1 x1 fs2 x2 -> -> Hf.
    apply unlink_iff in Hf as [fs3 Hf]. rewrite Hf.
    apply unlink_inl in Hf as (_ & _ & ->). cbn. by rewrite <- app_assoc.
Qed.

(** *** What is logged at [ERROR] *)

Definition new_logs {Y : Type} (before after : world Y) : list (level * string) :=
  drop (length (logs before)) (logs after).

Definition is_error_entry (entry : level * string) : bool :=
  match entry.1 with ERROR => true | INFO => false end.

(** The [ERROR] record that goes with an outcome of [_download_and_unpack]:
    the message of the exception, for an exception the handler caught. *)
Definition error_record (r : outcome unit) : list (level * string) :=
  match r with
  | Raised e => if is_Exception (exn_class e) then [(ERROR, exn_str e)] else []
  | Returned _ => []
  end.

Lemma new_logs_app (w w' : world X) (ls : list (level * string)) :
  logs w' = (logs w ++ ls)%list -> new_logs w w' = ls.
Proof. unfold new_logs. intros ->. by rewrite drop_app_length. Qed.

Lemma handle_logs (folder : string) (e : exn) (w : world X) :
  logs (handle folder e w).1
  = (logs w ++ if is_Exception (exn_class e)
               then [(ERROR, failure_message folder e)] else [])%list.
Proof.
  unfold handle. destruct (is_Exception (exn_class e)); cbn; by rewrite ?app_nil_r.
Qed.

Lemma handle_error_record (folder : string) (e : exn) (w : world X) :
  error_record (handle folder e w).2
  = if is_Exception (exn_class e) then [(ERROR, failure_message folder e)] else [].
Proof.
  unfold handle. destruct (is_Exception (exn_class e)) eqn:He; cbn; by rewrite ?He.
Qed.

Lemma download_logs (folder : string) (dir : list string) (bucket : string) (w : world X) :
  exists infos,
    logs (download folder dir bucket w).1
    = (logs w ++ infos ++ error_record (download folder dir bucket w).2)%list
    /\ List.filter is_error_entry infos = [].
Proof.
  rewrite download_and_unpack_unfold.
  destruct (pull_file_from_public_s3 _ _ _ _ _ _) as [[fs1 x1] [[]|e1]];
    [destruct (shutil_unpack_archive _ _ _ fs1 x1) as [[fs2 x2] [[]|e2]];
     [destruct (Os.unlink fs2 _) as [fs3|e3]|]|];
    rewrite ?handle_logs, ?handle_error_record;
    cbn [fst snd logs with_log with_fs world_after_pull world_after_unpack error_record];
    rewrite <- ?app_assoc.
  - eexists [_; _; _; _]. split; [by rewrite app_nil_r|done].
  - eexists [_; _; _]. split; [reflexivity|done].
  - eexists [_; _]. split; [reflexivity|done].
  - eexists [_]. split; [reflexivity|done].
Qed.

Lemma ensure_workspace_logs (w w1 : world X) (r : outcome unit) :
  ensure_workspace config w = (w1, r) ->
  exists infos,
    List.filter is_error_entry infos = [] /\ logs w1 = (logs w ++ infos)%list.
Proof.
  unfold ensure_workspace, invoke. destruct (Os.path_exists _ _).
  - intros [= <- _]. exists []. by rewrite app_nil_r.
  - cbn. destruct (setup_llmware_workspace _ _ _) as [[fs1 x1] r1].
    intros [= <- _]. by exists [(INFO, setup_message config)].
Qed.

Lemma pulled_download_calls (w w' : world X) (folder : string) (dir : list string)
    (v : world X) :
  calls w' = (calls w ++ setup_calls config w
              ++ download_calls config bucket_manager folder dir v)%list ->
  pulled w w' = true.
Proof.
  intros Hc. unfold pulled. rewrite (new_calls_app _ _ _ Hc), existsb_app.
  unfold download_calls.
  destruct (pull_file_from_public_s3 _ _ _ _ _ _) as [[? ?] [|]]; cbn;
    by rewrite orb_true_r.
Qed.

Lemma not_pulled_setup_calls (w w' : world X) :
  calls w' = (calls w ++ setup_calls config w)%list -> pulled w w' = false.
Proof.
  intros Hc. unfold pulled. by rewrite (new_calls_app _ _ _ Hc), setup_calls_no_pull.
Qed.

(** X6. A loader logs at [ERROR] only for a failed download, and then once,
    the message of the [RuntimeError] it raises: a run that did not call the
    storage client logs no [ERROR] (whatever it raises), and a run that did
    logs the message of the exception it raises when that is an [Exception],
    and nothing when it returns or lets a non-[Exception] signal through. *)
Theorem error_log_matches_exception (l : loader) (w : world X) :
  let w' := (load l w).1 in
  List.filter is_error_entry (new_logs w w')
  = if pulled w w'
    then match (load l w).2 with
         | Raised e => if is_Exception (exn_class e) then [(ERROR, exn_str e)] else []
         | Returned _ => []
         end
    else [].
Proof.
  cbv zeta. rewrite run_unfold.
  destruct (ensure_workspace config w) as [w1 r1] eqn:Hws.
  destruct (ensure_workspace_logs _ _ _ Hws) as (infos & Hinfos & Hlogs).
  apply ensure_workspace_calls in Hws as Hcalls. fold (setup_calls config w) in Hcalls.
  pose proof (not_pulled_setup_calls _ _ Hcalls) as Hnp.
  assert (Hquiet : List.filter is_error_entry (new_logs w w1) = []).
  { by rewrite (new_logs_app _ _ _ Hlogs), Hinfos. }
  destruct r1 as [[]|e]; cbn [fst snd].
  2:{ by rewrite Hquiet, Hnp. }
  destruct (_ && _); cbn [fst snd].
  { rewrite (not_pulled_setup_calls w (with_log _ w1)) by done.
    cbn [with_log logs]. rewrite Hlogs, <- app_assoc.
    rewrite (new_logs_app w _ (infos ++ [_])) by done.
    by rewrite List.filter_app, Hinfos. }
  destruct (Os.mkdir _ _ _ _) as [fs2|e]; cbn [fst snd].
  2:{ by rewrite Hquiet, Hnp. }
  set (v := with_log (INFO, download_message l) (with_fs fs2 w1)).
  destruct (download_logs (remote_archive_name l) (target config l)
              (bucket_name config) v) as (infos' & Hdl & Hinfos').
  pose proof (download_calls_spec config bucket_manager shutil_unpack_archive
                (remote_archive_name l) (target config l) v) as Hd.
  destruct (Setup._download_and_unpack _ _ _ _ _ v) as [w3 r3].
  cbn [fst snd] in Hdl, Hd.
  assert (Hw3 : (returning (target config l) (w3, r3)).1 = w3) by (by destruct r3).
  rewrite Hw3.
  subst v. cbn [with_log with_fs logs calls] in Hdl, Hd.
  rewrite Hcalls, <- app_assoc in Hd. rewrite (pulled_download_calls _ _ _ _ _ Hd).
  rewrite Hlogs, <- !app_assoc in Hdl.
  rewrite (new_logs_app _ _ _ Hdl), !List.filter_app, Hinfos, Hinfos'. cbn [app].
  destruct r3 as [[]|e]; cbn [returning snd error_record]; [done|].
  by destruct (is_Exception (exn_class e)).
Qed.

(** *** The folder name of [load_selected_sample_files] *)

Lemma parse_nil_relative (s : string) :
  PurePath.parse s = [] -> PurePath.is_absolute_str s = false.
Proof.
  unfold PurePath.parse.
  destruct (PathFacts.root_of_cases s) as [[_ ?]|[[-> | ->] _]]; done.
Qed.

(** X7. The folder name is not checked: with a folder name that has no part
    at all (the empty string, or a dot), the target of
    [load_selected_sample_files] is the workspace root itself, so that
    without overwrite the loader returns the workspace root and downloads
    nothing as soon as the workspace root exists. *)
Theorem folder_without_parts_is_the_workspace
    (folder : string) (over_write : option bool) (w : world X) :
  PurePath.parse folder = [] ->
  default false over_write = false ->
  Os.path_exists (fs w) (workspace_path config) = true ->
  exists w',
    load (LoadSelectedSampleFiles (Some folder) over_write) w
    = (w', Returned (workspace_path config))
    /\ fs w' = fs w /\ ext w' = ext w /\ calls w' = calls w.
Proof.
  intros Hparse Hov Hws.
  assert (Ht : target config (LoadSelectedSampleFiles (Some folder) over_write)
               = workspace_path config).
  { unfold target, PurePath.joinpath. cbn [local_subdir_name default from_option id].
    by rewrite (parse_nil_relative _ Hparse), Hparse, app_nil_r. }
  eexists. rewrite run_short_circuit; rewrite ?Ht; done.
Qed.













(** *** One loader behind three names *)

(** Two worlds that differ in their logs at most. *)
Definition same_state (w1 w2 : world X) : Prop :=
  fs w1 = fs w2 /\ ext w1 = ext w2 /\ calls w1 = calls w2.

Lemma download_same_state
    (folder : string) (dir : list string) (bucket : string) (w1 w2 : world X) :
  same_state w1 w2 ->
  same_state (download folder dir bucket w1).1 (download folder dir bucket w2).1
  /\ (download folder dir bucket w1).2 = (download folder dir bucket w2).2.
Proof.
  intros (Hfs & Hext & Hcalls). rewrite !download_and_unpack_unfold, Hfs, Hext.
  destruct (pull_file_from_public_s3 _ _ _ _ _ _) as [[fs1 x1] [[]|e1]];
    [destruct (shutil_unpack_archive _ _ _ fs1 x1) as [[fs2 x2] [[]|e2]];
     [destruct (Os.unlink fs2 _) as [fs3|e3]|]|];
    unfold handle, same_state; repeat destruct (is_Exception _);
    cbn; by rewrite Hcalls.
Qed.

Lemma ensure_workspace_same_state (w1 w2 : world X) :
  same_state w1 w2 ->
  same_state (ensure_workspace config w1).1 (ensure_workspace config w2).1
  /\ (ensure_workspace config w1).2 = (ensure_workspace config w2).2.
Proof.
  intros (Hfs & Hext & Hcalls). unfold ensure_workspace, invoke. rewrite Hfs.
  destruct (Os.path_exists _ _); [done|]. cbn [with_log fs ext calls]. rewrite Hfs, Hext.
  destruct (setup_llmware_workspace _ _ _) as [[fs1 x1] r1]. unfold same_state. cbn.
  by rewrite Hcalls.
Qed.

(** X10. What a loader does depends on which of the three it is only through
    its target directory, its archive name and its overwrite flag, and on the
    world only through the file system, the remote side and the calls made
    so far: two loader calls that agree on these end in the same file system
    and remote side, with the same calls, and return or raise the same.  So
    [load_selected_sample_files("sample_files")] is [load_sample_files()] but
    for the wording of the log. *)
Theorem loaders_agree (l1 l2 : loader) (w1 w2 : world X) :
  target config l1 = target config l2 ->
  remote_archive_name l1 = remote_archive_name l2 ->
  over_write_of l1 = over_write_of l2 ->
  same_state w1 w2 ->
  same_state (load l1 w1).1 (load l2 w2).1
  /\ (load l1 w1).2 = (load l2 w2).2.
Proof.
  intros Ht Hn Hov Hsame. rewrite !run_unfold, <- Ht, <- Hn, <- Hov.
  destruct (ensure_workspace_same_state _ _ Hsame) as [Hs Hr].
  destruct (ensure_workspace config w1) as [v1 r1], (ensure_workspace config w2) as [v2 r2].
  cbn [fst snd] in Hs, Hr. subst r2. destruct r1 as [[]|e]; [|done].
  pose proof Hs as (Hfs & Hext & Hcalls). rewrite <- Hfs.
  destruct (_ && _); [done|].
  destruct (Os.mkdir _ _ _ _) as [fs2|e]; [|done].
  destruct (download_same_state (remote_archive_name l1) (target config l1)
              (bucket_name config)
              (with_log (INFO, download_message l1) (with_fs fs2 v1))
              (with_log (INFO, download_message l2) (with_fs fs2 v2))) as [Hd Hrd];
    [done|].
  destruct (Setup._download_and_unpack _ _ _ _ _ (with_log _ (with_fs fs2 v1)))
    as [u1 q1],
    (Setup._download_and_unpack _ _ _ _ _ (with_log _ (with_fs fs2 v2))) as [u2 q2].
  cbn [fst snd] in Hd, Hrd. subst q2. by destruct q1 as [[]|e].
Qed.

(** *** What a loader writes itself *)

(** A collaborator that leaves alone what is at [q]. *)
Definition leaves (q : list string) (n : node) (f : collaborator X) : Prop :=
  forall fs x fs' x' r,
    f fs x = (fs', x', r) -> Os.node_at fs q = Some n -> Os.node_at fs' q = Some n.

(** X11. A loader itself only makes directories and removes the temporary
    archive: whatever is at a path other than that of the temporary archive,
    and is left alone by the workspace set-up, by the fetch and by the
    extraction, is still there, unchanged, when the loader returns or
    raises. *)
Theorem loader_footprint (l : loader) (w : world X) (q : list string) (n : node) :
  leaves q n (setup_llmware_workspace config) ->
  leaves q n (pull (remote_zip l) (PurePath.str (local_zip config l)) (bucket_name config)) ->
  leaves q n (shutil_unpack_archive (PurePath.str (local_zip config l))
                (PurePath.str (target config l)) "zip") ->
  q <> local_zip config l ->
  Os.node_at (fs w) q = Some n ->
  Os.node_at (fs (load l w).1) q = Some n.
Proof.
  intros Hsetup Hpull Hunpack Hne Hq. rewrite run_unfold.
  assert (Hws : Os.node_at (fs (ensure_workspace config w).1) q = Some n).
  { unfold ensure_workspace, invoke. destruct (Os.path_exists _ _); [done|].
    cbn [with_log fs ext]. destruct (setup_llmware_workspace _ _ _) as [[fs1 x1] r1] eqn:Hs.
    cbn. eauto. }
  destruct (ensure_workspace config w) as [w1 [[]|e]]; cbn [fst] in Hws |- *; [|done].
  destruct (_ && _); [done|].
  destruct (Os.mkdir _ _ _ _) as [fs2|e] eqn:Hmk; [|done].
  apply (mkdir_keeps _ _ _ _ _ Hmk) in Hws.
  assert (Hfst : forall m : world X * outcome unit,
            (returning (target config l) m).1 = m.1) by (by intros [? [[]|?]]).
  rewrite Hfst, download_and_unpack_unfold. cbn [with_log with_fs fs ext].
  fold (local_zip config l) (remote_zip l).
  destruct (pull_file_from_public_s3 _ _ _ _ _ _) as [[fs3 x3] r3] eqn:Hp.
  pose proof (Hpull _ _ _ _ _ Hp Hws) as Hq3.
  assert (Hh : forall e (v : world X), fs (handle (remote_archive_name l) e v).1 = fs v).
  { intros e v. unfold handle. by destruct (is_Exception _). }
  destruct r3 as [[]|e3]; [|rewrite Hh; by unfold world_after_pull].
  destruct (shutil_unpack_archive _ _ _ fs3 x3) as [[fs4 x4] r4] eqn:Hu.
  pose proof (Hunpack _ _ _ _ _ Hu Hq3) as Hq4.
  destruct r4 as [[]|e4]; [|rewrite Hh; by unfold world_after_unpack].
  destruct (Os.unlink fs4 _) as [fs5|e5] eqn:Hul;
    [|rewrite Hh; by unfold world_after_unpack].
  cbn. by rewrite (unlink_frame _ _ _ _ Hul Hne).
Qed.

(** *** The paths handed to the collaborators *)



(** *** Directories stay *)

(** X13. A loader removes no directory: with a workspace set-up, a storage
    client and an extractor that remove none, every directory that was there
    before a loader call is there after it, however the call ends (the
    [unlink] of the temporary archive removes a file only). *)
Theorem directories_are_kept (l : loader) (w : world X) (p : list string) :
  collaborators_keep_dirs bucket_manager shutil_unpack_archive ->
  keeps_dirs (setup_llmware_workspace config) ->
  Os.is_dir (fs w) p = true ->
  Os.is_dir (fs (load l w).1) p = true.
Proof.
  intros Hkeep Hsetup Hp. rewrite run_unfold.
  assert (Hws : Os.is_dir (fs (ensure_workspace config w).1) p = true).
  { unfold ensure_workspace, invoke. destruct (Os.path_exists _ _); [done|].
    cbn [with_log fs ext].
    destruct (setup_llmware_workspace _ _ _) as [[fs1 x1] r1] eqn:Hs. cbn. eauto. }
  destruct (ensure_workspace config w) as [w1 [[]|e]]; cbn [fst] in Hws |- *; [|done].
  destruct (_ && _); [done|].
  destruct (Os.mkdir _ _ _ _) as [fs2|e] eqn:Hmk; [|done].
  apply (mkdir_keeps_dir _ _ _ _ Hmk) in Hws.
  destruct (Setup._download_and_unpack _ _ _ _ _ _) as [w3 r3] eqn:Hd.
  apply (download_keeps_dirs config _ _ _ _ _ _ _ p Hkeep) in Hd; [|done].
  by destruct r3.
Qed.

End LoaderBehaviour.

(** ** More concrete runs *)

Section ModelLeaves.

Implicit Types (fs : gmap (list string) node) (q : list string).

Lemma model_setup_leaves (ws : string) q n : leaves q n (Model.setup_workspace ws).
Proof.
  intros fs x fs' x' r. unfold Model.setup_workspace.
  destruct (Os.mkdir fs _ true true) as [fs1|e] eqn:Hmk; intros [= <- _ _];
    eauto using mkdir_keeps.
Qed.

Lemma model_pull_leaves (k lf b : string) q n :
  q <> PurePath.parse lf -> leaves q n (Model.pull k lf b).
Proof.
  intros Hne fs x fs' x' r Hrun Hq.
  apply pull_spec in Hrun as (_ & Hframe & _). by rewrite Hframe.
Qed.

(** The extractor leaves alone the files outside the directory it extracts
    to. *)
Lemma model_unpack_leaves (a d f : string) q c :
  (forall rest, q <> (PurePath.parse d ++ rest)%list) ->
  leaves q (File c) (Model.unpack_archive a d f).
Proof.
  intros Hout fs x fs' x' r Hrun Hq.
  destruct (Os.node_at fs (PurePath.parse a)) as [[|[data|ms]]|] eqn:Ha.
  4:{ unfold Model.unpack_archive in Hrun. rewrite Ha in Hrun.
      destruct (negb _); by injection Hrun as <- _ _. }
  1,2: unfold Model.unpack_archive in Hrun; rewrite Ha in Hrun;
       destruct (negb _); by injection Hrun as <- _ _.
  eapply unpack_archive_spec; eauto.
  intros (m & Hm & _)%list_elem_of_In%in_map_iff. by apply (Hout m.1).
Qed.

Lemma model_setup_keeps_dirs (ws : string) : keeps_dirs (Model.setup_workspace ws).
Proof.
  intros fs x fs' x' r p. unfold Model.setup_workspace.
  destruct (Os.mkdir fs _ true true) as [fs1|e] eqn:Hmk; intros [= <- _ _];
    eauto using mkdir_keeps_dir.
Qed.

End ModelLeaves.

Module Cases.
Import Scenario.

(** X2 with a regular file where the sample directory would be. *)
Lemma mkdir_failure_is_not_wrapped_witness :
  run_model (LoadSampleFiles (Some true)) file_world
  = (file_world,
     Raised (Os.os_error FileExistsError "[Errno 17] File exists" sample_dir))
  /\ List.filter is_pull (new_calls file_world file_world) = [].
Proof.
  apply (mkdir_failure_is_not_wrapped cfg Model.bucket_manager Model.unpack_archive
           (LoadSampleFiles (Some true)) file_world file_world).
  - apply ensure_workspace_existing. by vm_compute.
  - by vm_compute.
  - by vm_compute.
Defined.

(** X3 on the same disk. *)
Lemma over_write_on_regular_file_witness :
  over_write_of (LoadSampleFiles (Some true)) = true
  /\ Os.is_file (fs file_world) sample_dir = true
  /\ exists e,
       run_model (LoadSampleFiles (Some true)) file_world = (file_world, Raised e)
       /\ exn_class e = FileExistsError /\ exn_cause e = None.
Proof.
  split; [reflexivity|]. split; [by vm_compute|].
  apply (over_write_on_regular_file cfg Model.bucket_manager Model.unpack_archive
           (LoadSampleFiles (Some true)) file_world); by vm_compute.
Defined.

(** A workspace root under a regular file: it cannot be made. *)
Definition blocked_cfg : LLMWareConfig (gmap (string * string) blob) :=
  Model.config "/f/ws" "llmware".

Definition blocked_world : world (gmap (string * string) blob) :=
  World {[ ["/"; "f"] := File (Raw "x") ]} objects [] [].

Definition not_a_directory : exn :=
  Os.os_error NotADirectoryError "[Errno 20] Not a directory" ["/"; "f"; "ws"].

(** X4 on that disk. *)
Lemma setup_failure_is_not_wrapped_witness :
  Os.path_exists (fs blocked_world) (workspace_path blocked_cfg) = false
  /\ exists w',
       run blocked_cfg Model.bucket_manager Model.unpack_archive
         (LoadSampleFiles None) blocked_world
       = (w', Raised not_a_directory)
       /\ fs w' = fs blocked_world
       /\ new_calls blocked_world w' = [CallSetupWorkspace].
Proof.
  split; [by vm_compute|].
  pose (res := setup_llmware_workspace blocked_cfg (fs blocked_world) (ext blocked_world)).
  destruct (setup_failure_is_not_wrapped blocked_cfg Model.bucket_manager
              Model.unpack_archive (LoadSampleFiles None) blocked_world
              res.1.1 res.1.2 not_a_directory)
    as (w' & Hrun & Hfs & _ & Hcalls).
  - by vm_compute.
  - apply triple_eta. by vm_compute.
  - exists w'. split; [done|]. split; [|done]. rewrite Hfs. by vm_compute.
Defined.

(** X7 with the empty folder name, on the populated disk. *)
Lemma folder_without_parts_is_the_workspace_witness :
  PurePath.parse "" = []
  /\ exists w',
       run_model (LoadSelectedSampleFiles (Some "") None) populated
       = (w', Returned ["/"; "tmp"; "ws"])
       /\ fs w' = fs populated /\ ext w' = ext populated /\ calls w' = calls populated.
Proof.
  split; [reflexivity|].
  apply (folder_without_parts_is_the_workspace cfg Model.bucket_manager
           Model.unpack_archive "" None populated); by vm_compute.
Defined.


(** With a trailing slash the folder name is not in the form [str] gives, and
    the archive goes into the target directory, under the name [.zip]. *)
Example trailing_slash_archive_inside :
  target cfg (LoadSelectedSampleFiles (Some "/srv/data/") None) = ["/"; "srv"; "data"]
  /\ local_zip cfg (LoadSelectedSampleFiles (Some "/srv/data/") None)
     = ["/"; "srv"; "data"; ".zip"].
Proof. split; reflexivity. Qed.


(** X10: [load_selected_sample_files("sample_files")] on the disk that starts
    empty ends as [load_sample_files()] does. *)
Lemma loaders_agree_witness :
  target cfg (LoadSelectedSampleFiles (Some "sample_files") None)
  = target cfg (LoadSampleFiles None)
  /\ same_state
       (run_model (LoadSelectedSampleFiles (Some "sample_files") None) fresh).1
       (run_model (LoadSampleFiles None) fresh).1
  /\ (run_model (LoadSelectedSampleFiles (Some "sample_files") None) fresh).2
     = (run_model (LoadSampleFiles None) fresh).2.
Proof.
  split; [reflexivity|].
  apply (loaders_agree cfg Model.bucket_manager Model.unpack_archive
           (LoadSelectedSampleFiles (Some "sample_files") None) (LoadSampleFiles None)
           fresh fresh); done.
Defined.

(** A file of the user in the workspace, beside the sample directory. *)
Definition readme : list string := ["/"; "tmp"; "ws"; "readme.txt"].

Definition with_readme : world (gmap (string * string) blob) :=
  World {[ ["/"; "tmp"] := Dir;
           ["/"; "tmp"; "ws"] := Dir;
           sample_dir := Dir;
           readme := File (Raw "hello") ]}
        objects [] [].

(** X11: that file is there after [load_sample_files(over_write=True)]. *)
Lemma loader_footprint_witness :
  Os.node_at (fs with_readme) readme = Some (File (Raw "hello"))
  /\ readme <> local_zip cfg (LoadSampleFiles (Some true))
  /\ Os.node_at (fs (run_model (LoadSampleFiles (Some true)) with_readme).1) readme
     = Some (File (Raw "hello")).
Proof.
  split; [by vm_compute|]. split; [by vm_compute|].
  apply (loader_footprint cfg Model.bucket_manager Model.unpack_archive
           (LoadSampleFiles (Some true)) with_readme readme (File (Raw "hello"))).
  - apply model_setup_leaves.
  - apply model_pull_leaves. by vm_compute.
  - apply model_unpack_leaves. intros rest. by vm_compute.
  - by vm_compute.
  - by vm_compute.
Defined.

(** X13: the directory [Agreements] of a first download is there after
    [load_sample_files(over_write=True)]. *)
Lemma directories_are_kept_witness :
  Os.is_dir (fs populated) ["/"; "tmp"; "ws"; "sample_files"; "Agreements"] = true
  /\ Os.is_dir (fs (run_model (LoadSampleFiles (Some true)) populated).1)
       ["/"; "tmp"; "ws"; "sample_files"; "Agreements"] = true.
Proof.
  split; [by vm_compute|].
  apply (directories_are_kept cfg Model.bucket_manager Model.unpack_archive
           (LoadSampleFiles (Some true)) populated).
  - exact model_keeps_dirs.
  - apply model_setup_keeps_dirs.
  - by vm_compute.
Defined.

End Cases.
